(** * Romanian subtitles addon: a shallow embedding of [server.py]

    The development follows the layout of the Python module:

    - Python values and builtins the endpoint relies on ([str.split],
      [str.startswith], [int], f-string formatting of integers);
    - a small monad for Python control flow: exceptions that keep every
      side effect made before the [raise], a store for the local
      variables of the running function, and a chronological trace of
      the calls made to the outside world (logger, HTTP session,
      [time.sleep], BeautifulSoup queries);
    - the three scraper classes, transcribed one by one, and the
      [get_subtitles] endpoint;
    - the properties of the scraping-and-aggregation pipeline. *)

From Stdlib Require Import String Ascii List ZArith Bool Arith Lia.
From Stdlib Require Import DecimalString DecimalPos.
Import ListNotations.
Local Open Scope list_scope.
Local Open Scope string_scope.

Set Implicit Arguments.

(* ===================================================================== *)
(** ** Python strings *)
(* ===================================================================== *)

(** A [str] is a [string] of 8-bit characters: the identifiers, links
    and titles are read as ASCII text.  Text outside ASCII is outside
    this model: the Unicode digits and blanks [int] and [str.strip]
    know, and text that cannot be encoded when a response is
    serialised. *)

Module PyStr.

(** [s.startswith(p)] *)
Definition startswith (s p : string) : bool := String.prefix p s.

(** [not s] on a [str]: only the empty string is falsy. *)
Definition is_empty (s : string) : bool :=
  match s with EmptyString => true | String _ _ => false end.

(** [s.split(sep)] for a one-character separator.  The result always
    has at least one component. *)
Fixpoint split (sep : ascii) (s : string) : list string :=
  match s with
  | EmptyString => [EmptyString]
  | String c rest =>
      if Ascii.eqb c sep then EmptyString :: split sep rest
      else match split sep rest with
           | [] => [String c EmptyString]
           | hd :: tl => String c hd :: tl
           end
  end.

(** [str(n)] for a non-negative [int]. *)
Definition of_nat (n : nat) : string :=
  NilEmpty.string_of_uint (Nat.to_uint n).

(** [str(z)] for an [int]. *)
Definition of_Z (z : Z) : string :=
  NilEmpty.string_of_int (Z.to_int z).

(** The ASCII blanks [str.strip] removes. *)
Definition is_space (c : ascii) : bool :=
  let n := nat_of_ascii c in
  Nat.eqb n 32 || (Nat.leb 9 n && Nat.leb n 13) || (Nat.leb 28 n && Nat.leb n 31).

(** The blanks [int] skips around a literal: space, tab, line feed,
    vertical tab, form feed, carriage return (the separators 0x1C to
    0x1F are not among them). *)
Definition is_c_space (c : ascii) : bool :=
  let n := nat_of_ascii c in
  Nat.eqb n 32 || (Nat.leb 9 n && Nat.leb n 13).

Definition is_digit (c : ascii) : bool :=
  let n := nat_of_ascii c in Nat.leb 48 n && Nat.leb n 57.

Definition digit_value (c : ascii) : Z := Z.of_nat (nat_of_ascii c - 48).

Fixpoint lstrip_by (blank : ascii -> bool) (s : string) : string :=
  match s with
  | String c rest => if blank c then lstrip_by blank rest else s
  | EmptyString => EmptyString
  end.

Fixpoint rstrip_by (blank : ascii -> bool) (s : string) : string :=
  match s with
  | EmptyString => EmptyString
  | String c rest =>
      match rstrip_by blank rest with
      | EmptyString => if blank c then EmptyString else String c EmptyString
      | r => String c r
      end
  end.

(** [s.strip()] *)
Definition strip (s : string) : string := rstrip_by is_space (lstrip_by is_space s).

(** The digits of an integer literal: decimal digits, with single
    underscores allowed between two digits. *)
Fixpoint parse_digits (s : string) (acc : Z) (after_digit : bool) : option Z :=
  match s with
  | EmptyString => if after_digit then Some acc else None
  | String c rest =>
      if is_digit c then parse_digits rest (10 * acc + digit_value c)%Z true
      else if Ascii.eqb c "_" && after_digit then parse_digits rest acc false
      else None
  end.

(** The head of [s] made of digits and underscores: what [int] scans
    before it converts. *)
Fixpoint digit_run (s : string) : string :=
  match s with
  | String c rest =>
      if is_digit c || Ascii.eqb c "_" then String c (digit_run rest) else EmptyString
  | EmptyString => EmptyString
  end.

Fixpoint count_digits (s : string) : nat :=
  match s with
  | String c rest => (if is_digit c then 1 else 0) + count_digits rest
  | EmptyString => 0
  end.

(** [sys.int_info.default_max_str_digits]: CPython 3.11 and later (and
    the security releases of 3.7 to 3.10) refuse to convert a decimal
    literal with more digits. *)
Definition max_str_digits : nat := 4300.

(** The literal without its sign. *)
Definition unsigned (s : string) : string :=
  match s with
  | String "-" rest => rest
  | String "+" rest => rest
  | _ => s
  end.

(** [int] gives up on the size of a literal when the run of digits
    after the leading blanks and the sign is well formed and has more
    than [max_str_digits] digits, whatever follows the run. *)
Definition too_long (s : string) : bool :=
  let run := digit_run (unsigned (lstrip_by is_c_space s)) in
  match parse_digits run 0%Z false with
  | Some _ => Nat.ltb max_str_digits (count_digits run)
  | None => false
  end.

(** [int(s)] on a [str], base 10: surrounding blanks are ignored, one
    sign is accepted; [None] stands for the [ValueError]. *)
Definition parse_int (s : string) : option Z :=
  if too_long s then None
  else match rstrip_by is_c_space (lstrip_by is_c_space s) with
       | String "-" rest => option_map Z.opp (parse_digits rest 0%Z false)
       | String "+" rest => parse_digits rest 0%Z false
       | body => parse_digits body 0%Z false
       end.

(** [repr(s)] on ASCII text: single quotes, or double quotes when the
    text holds a single quote and no double quote; the quote in use and
    the backslash are escaped, tab, line feed and carriage return are
    written [\t], [\n], [\r], and the other characters outside the
    printable range as [\xNN]. *)
Definition double_quote : ascii := ascii_of_nat 34.

Definition backslash : ascii := ascii_of_nat 92.

Fixpoint has_char (c : ascii) (s : string) : bool :=
  match s with
  | String d rest => Ascii.eqb c d || has_char c rest
  | EmptyString => false
  end.

Definition hex_digit (n : nat) : ascii :=
  nth n (list_ascii_of_string "0123456789abcdef") "0"%char.

Definition repr_char (quote c : ascii) : string :=
  let n := nat_of_ascii c in
  if Ascii.eqb c quote || Ascii.eqb c backslash then String backslash (String c EmptyString)
  else if Nat.eqb n 9 then String backslash "t"
  else if Nat.eqb n 10 then String backslash "n"
  else if Nat.eqb n 13 then String backslash "r"
  else if Nat.ltb n 32 || Nat.leb 127 n then
    String backslash (String "x" (String (hex_digit (n / 16))
                                    (String (hex_digit (n mod 16)) EmptyString)))
  else String c EmptyString.

Fixpoint repr_body (quote : ascii) (s : string) : string :=
  match s with
  | String c rest => repr_char quote c ++ repr_body quote rest
  | EmptyString => EmptyString
  end.

Definition repr (s : string) : string :=
  let quote := if has_char "'" s && negb (has_char double_quote s)
               then double_quote else "'"%char in
  String quote (repr_body quote s ++ String quote EmptyString).

(** The text of the [ValueError] of [int(s)]: the size limit when the
    literal is too long, otherwise the invalid literal, shown with at
    most 200 characters of its [repr]. *)
Definition int_error (s : string) : string :=
  if too_long s then
    "Exceeds the limit (" ++ of_nat max_str_digits
    ++ " digits) for integer string conversion: value has "
    ++ of_nat (count_digits (digit_run (unsigned (lstrip_by is_c_space s))))
    ++ " digits; use sys.set_int_max_str_digits() to increase the limit"
  else "invalid literal for int() with base 10: " ++ substring 0 200 (repr s).

End PyStr.

(* ===================================================================== *)
(** ** Exceptions, effects and the control-flow monad *)
(* ===================================================================== *)

(** The exceptions that can travel through [server.py].  All of them are
    subclasses of [Exception], so every [except Exception] clause of the
    module catches each of them. *)
Inductive exn : Type :=
| ValueError (msg : string)
| NotImplementedError
| HTTPException (status_code : Z) (detail : string)
| LibraryError (msg : string).
(** [LibraryError] stands for whatever [requests], [bs4] or [urllib] may
    raise: timeouts, connection errors, parser errors. *)

(** [str(e)], as interpolated in the log messages. *)
Definition exn_str (e : exn) : string :=
  match e with
  | ValueError msg => msg
  | NotImplementedError => ""
  | HTTPException code detail => PyStr.of_Z code ++ ": " ++ detail
  | LibraryError msg => msg
  end.

(** How a Python call ends. *)
Inductive outcome (A : Type) : Type :=
| Ret (a : A)
| Raise (e : exn).
Arguments Ret {A} a.
Arguments Raise {A} e.

Inductive level : Type := INFO | WARNING | ERROR.

(** A selector argument of [find_all]: a plain string, or [re.compile]. *)
Inductive matcher : Type :=
| Exact (s : string)
| Regex (pattern : string).

(** The two shapes of [find_all] call in the module:
    [find_all(name, class_=m)] and [find_all(name, href=m)]. *)
Inductive selector : Type :=
| ByClass (name : string) (class_ : matcher)
| ByHref (name : string) (href : matcher).

(** What the module does to the outside world, in the order it does it. *)
Inductive event : Type :=
| Log (lvl : level) (msg : string)      (* logger.info / warning / error *)
| HttpGet (url : string)                (* session.get(url, timeout=10) *)
| FindAll (sel : selector)              (* soup.find_all(...) *)
| Sleep.                                (* time.sleep(0.5) *)

Definition trace : Type := list event.

(** A computation with local variables of type [L]: it reads and updates
    the locals, extends the trace, and returns or raises.  Locals and
    trace survive a [raise], as they do in Python. *)
Definition M (L A : Type) : Type := L -> trace -> outcome A * L * trace.

Definition ret {L A} (a : A) : M L A := fun l t => (Ret a, l, t).

Definition bind {L A B} (m : M L A) (k : A -> M L B) : M L B :=
  fun l t =>
    match m l t with
    | (Ret a, l', t') => k a l' t'
    | (Raise e, l', t') => (Raise e, l', t')
    end.

Definition raise {L A} (e : exn) : M L A := fun l t => (Raise e, l, t).

(** [try: body  except Exception as e: handler(e)] *)
Definition try_except {L A} (body : M L A) (handler : exn -> M L A) : M L A :=
  fun l t =>
    match body l t with
    | (Ret a, l', t') => (Ret a, l', t')
    | (Raise e, l', t') => handler e l' t'
    end.

Definition emit {L} (ev : event) : M L unit := fun l t => (Ret tt, l, (t ++ [ev])%list).

Definition get_locals {L} : M L L := fun l t => (Ret l, l, t).

Definition modify_locals {L} (f : L -> L) : M L unit := fun l t => (Ret tt, f l, t).

(** The result of a library call that may raise. *)
Definition lift {L A} (o : outcome A) : M L A := fun l t => (o, l, t).

Declare Scope py_scope.
Delimit Scope py_scope with py.
Notation "x <- m ;; k" := (bind m (fun x => k))
  (at level 100, m at next level, right associativity) : py_scope.
Notation "m ;; k" := (bind m (fun _ => k))
  (at level 100, right associativity) : py_scope.
Local Open Scope py_scope.

(** [for x in xs: body(x)]; an exception leaving [body] ends the loop. *)
Fixpoint for_ {L X} (xs : list X) (body : X -> M L unit) : M L unit :=
  match xs with
  | [] => ret tt
  | x :: rest => body x ;; for_ rest body
  end.

(** [enumerate(xs)] *)
Fixpoint enumerate_from {X} (start : nat) (xs : list X) : list (nat * X) :=
  match xs with
  | [] => []
  | x :: rest => (start, x) :: enumerate_from (S start) rest
  end.

Definition enumerate {X} (xs : list X) : list (nat * X) := enumerate_from 0 xs.

Definition logger_info {L} (msg : string) : M L unit := emit (Log INFO msg).
Definition logger_warning {L} (msg : string) : M L unit := emit (Log WARNING msg).
Definition logger_error {L} (msg : string) : M L unit := emit (Log ERROR msg).
Definition time_sleep {L} : M L unit := emit Sleep.

(** A called function, seen from its caller: it extends the trace and
    returns or raises; its locals are its own. *)
Definition Fn (A : Type) : Type := trace -> outcome A * trace.

(** [def f(...): body], with the initial values [init] of the locals. *)
Definition def {L A} (init : L) (body : M L A) : Fn A :=
  fun t => let '(o, _, t') := body init t in (o, t').

(** A call [f(...)] from a body whose locals are [L]. *)
Definition call {L A} (f : Fn A) : M L A :=
  fun l t => let '(o, t') := f t in (o, l, t').

(* ===================================================================== *)
(** ** External collaborators: requests, BeautifulSoup, urllib *)
(* ===================================================================== *)

(** The part of [requests.Response] the scrapers read. *)
Record Response : Type := { status_code : Z; content : string }.

(** The libraries are not part of the repository; the scrapers are
    written against this interface and every property below holds for
    all its implementations.
    - [session_get url] is [self.session.get(url, timeout=10)]: the
      response, or the exception the network raised;
    - [BeautifulSoup body] is [BeautifulSoup(body, 'html.parser')];
    - [find_all soup sel] is the [ResultSet] (a list, in document order);
    - [tag_get t key default] is [t.get(key, default)];
    - [get_text t] is [t.get_text(strip=True)];
    - [tag_find t name] is [t.find(name)], [None] when nothing matches;
    - [urljoin base link] is [urllib.parse.urljoin], which raises
      [ValueError] on some malformed links. *)
Class Library : Type := {
  Soup : Type;
  Tag : Type;
  session_get : string -> outcome Response;
  BeautifulSoup : string -> outcome Soup;
  find_all : Soup -> selector -> list Tag;
  tag_name : Tag -> string;
  tag_get : Tag -> string -> string -> string;
  get_text : Tag -> string;
  tag_find : Tag -> string -> option Tag;
  urljoin : string -> string -> outcome string
}.

(** The dict appended by the scrapers and serialised in the response. *)
Record SubtitleRecord : Type := {
  id : string;
  url : string;
  lang : string;
  title : string
}.

(** [soup.find_all(...)], recorded in the trace. *)
Definition soup_find_all {lib : Library} {L} (soup : Soup) (sel : selector) : M L (list Tag) :=
  emit (FindAll sel) ;; ret (find_all soup sel).

(** [a or b] on two lists: [b] is evaluated only when [a] is empty. *)
Definition or_ {L X} (a b : M L (list X)) : M L (list X) :=
  xs <- a ;;
  match xs with
  | [] => b
  | _ :: _ => ret xs
  end.

(** [subtitles.append(d)] *)
Definition append {X} (d : X) : M (list X) unit :=
  modify_locals (fun subtitles => (subtitles ++ [d])%list).

(** [self.session.get(url, timeout=10)] *)
Definition session_get_ {lib : Library} {L} (url : string) : M L Response :=
  emit (HttpGet url) ;; lift (session_get url).

(** Base class: [SubtitleScraper.search] *)
Module SubtitleScraper.
Definition search (imdb_id type : string) (season episode : option Z)
  : Fn (list SubtitleRecord) :=
  def tt (raise NotImplementedError).
End SubtitleScraper.

(** The three [search] methods are transcribed statement by statement.
    - [subtitles = []] is the initial value of the locals in [def];
      the final [return subtitles] reads it back with [get_locals].
    - The early [return subtitles] under [status_code != 200] is the
      [then] branch: it ends the [try] block, after which the final
      [return subtitles] returns the same list.
    - [continue] ends the iteration: [ret None] for a container without
      an anchor, [ret tt] for an empty link or title.
    - The two assignments to [link] and [title] in the [if]/[else] are
      the pair bound to [found]. *)

(** Scraper for subtitrari.ro *)
Module SubtitrariRoScraper.
Definition BASE_URL : string := "https://www.subtitrari.ro".

Definition search {lib : Library}
  (imdb_id type : string) (season episode : option Z)
  : Fn (list SubtitleRecord) :=
  def [] (
    try_except (
      let search_url := BASE_URL ++ "/index.php?page=cauta&z7=" ++ imdb_id in
      logger_info ("Searching subtitrari.ro with URL: " ++ search_url) ;;
      response <- session_get_ search_url ;;
      if negb (status_code response =? 200)%Z then
        logger_warning ("subtitrari.ro returned status "
                        ++ PyStr.of_Z (status_code response))
      else
        soup <- lift (BeautifulSoup (content response)) ;;
        results <- or_ (soup_find_all soup (ByClass "div" (Exact "title")))
                       (soup_find_all soup (ByHref "a" (Regex "subtitrare"))) ;;
        for_ (enumerate (firstn 10 results)) (fun '(idx, result) =>
          try_except (
            found <- (if tag_name result =? "a" then
                        ret (Some (tag_get result "href" "", get_text result))
                      else
                        match tag_find result "a" with
                        | None => ret None
                        | Some link_tag =>
                            ret (Some (tag_get link_tag "href" "", get_text link_tag))
                        end) ;;
            match found with
            | None => ret tt
            | Some (link, title) =>
                if PyStr.is_empty link || PyStr.is_empty title then ret tt
                else
                  link <- (if negb (PyStr.startswith link "http")
                           then lift (urljoin BASE_URL link)
                           else ret link) ;;
                  let sub_id := "subtitrari_" ++ PyStr.of_nat idx ++ "_" ++ imdb_id in
                  append {| id := sub_id;
                            url := link;
                            lang := "rum";
                            title := "[subtitrari.ro] " ++ title |}
            end
          ) (fun e => logger_error ("Error parsing subtitle entry: " ++ exn_str e)))
    ) (fun e => logger_error ("Error scraping subtitrari.ro: " ++ exn_str e)) ;;
    subtitles <- get_locals ;;
    ret subtitles).
End SubtitrariRoScraper.

(** Scraper for subs.ro *)
Module SubsRoScraper.
Definition BASE_URL : string := "https://www.subs.ro".

Definition search {lib : Library}
  (imdb_id type : string) (season episode : option Z)
  : Fn (list SubtitleRecord) :=
  def [] (
    try_except (
      let search_url := BASE_URL ++ "/search.php?q=" ++ imdb_id in
      logger_info ("Searching subs.ro with URL: " ++ search_url) ;;
      response <- session_get_ search_url ;;
      if negb (status_code response =? 200)%Z then
        logger_warning ("subs.ro returned status "
                        ++ PyStr.of_Z (status_code response))
      else
        soup <- lift (BeautifulSoup (content response)) ;;
        results <- or_ (soup_find_all soup (ByHref "a" (Regex "subtitrare|subtitle")))
                       (soup_find_all soup (ByClass "div" (Regex "subtitle|result"))) ;;
        for_ (enumerate (firstn 10 results)) (fun '(idx, result) =>
          try_except (
            found <- (if tag_name result =? "a" then
                        ret (Some (tag_get result "href" "", get_text result))
                      else
                        match tag_find result "a" with
                        | None => ret None
                        | Some link_tag =>
                            ret (Some (tag_get link_tag "href" "", get_text link_tag))
                        end) ;;
            match found with
            | None => ret tt
            | Some (link, title) =>
                if PyStr.is_empty link || PyStr.is_empty title then ret tt
                else
                  link <- (if negb (PyStr.startswith link "http")
                           then lift (urljoin BASE_URL link)
                           else ret link) ;;
                  let sub_id := "subsro_" ++ PyStr.of_nat idx ++ "_" ++ imdb_id in
                  append {| id := sub_id;
                            url := link;
                            lang := "rum";
                            title := "[subs.ro] " ++ title |}
            end
          ) (fun e => logger_error ("Error parsing subtitle entry: " ++ exn_str e)))
    ) (fun e => logger_error ("Error scraping subs.ro: " ++ exn_str e)) ;;
    subtitles <- get_locals ;;
    ret subtitles).
End SubsRoScraper.

(** Scraper for titrari.ro *)
Module TitrariRoScraper.
Definition BASE_URL : string := "https://www.titrari.ro".

Definition search {lib : Library}
  (imdb_id type : string) (season episode : option Z)
  : Fn (list SubtitleRecord) :=
  def [] (
    try_except (
      let search_url := BASE_URL ++ "/index.php?page=cauta&z7=" ++ imdb_id in
      logger_info ("Searching titrari.ro with URL: " ++ search_url) ;;
      response <- session_get_ search_url ;;
      if negb (status_code response =? 200)%Z then
        logger_warning ("titrari.ro returned status "
                        ++ PyStr.of_Z (status_code response))
      else
        soup <- lift (BeautifulSoup (content response)) ;;
        results <- or_ (soup_find_all soup (ByHref "a" (Regex "subtitrare|id=")))
                       (soup_find_all soup (ByClass "div" (Exact "title"))) ;;
        for_ (enumerate (firstn 10 results)) (fun '(idx, result) =>
          try_except (
            found <- (if tag_name result =? "a" then
                        ret (Some (tag_get result "href" "", get_text result))
                      else
                        match tag_find result "a" with
                        | None => ret None
                        | Some link_tag =>
                            ret (Some (tag_get link_tag "href" "", get_text link_tag))
                        end) ;;
            match found with
            | None => ret tt
            | Some (link, title) =>
                if PyStr.is_empty link || PyStr.is_empty title then ret tt
                else
                  link <- (if negb (PyStr.startswith link "http")
                           then lift (urljoin BASE_URL link)
                           else ret link) ;;
                  let sub_id := "titrari_" ++ PyStr.of_nat idx ++ "_" ++ imdb_id in
                  append {| id := sub_id;
                            url := link;
                            lang := "rum";
                            title := "[titrari.ro] " ++ title |}
            end
          ) (fun e => logger_error ("Error parsing subtitle entry: " ++ exn_str e)))
    ) (fun e => logger_error ("Error scraping titrari.ro: " ++ exn_str e)) ;;
    subtitles <- get_locals ;;
    ret subtitles).
End TitrariRoScraper.

(** An element of the module-level list [scrapers]: an instance, seen
    through its class name and its [search] method. *)
Record Scraper : Type := {
  class_name : string;
  search : string -> string -> option Z -> option Z -> Fn (list SubtitleRecord)
}.

(** [scrapers = [SubtitrariRoScraper(), SubsRoScraper(), TitrariRoScraper()]] *)
Definition scrapers {lib : Library} : list Scraper :=
  [ {| class_name := "SubtitrariRoScraper"; search := SubtitrariRoScraper.search |};
    {| class_name := "SubsRoScraper"; search := SubsRoScraper.search |};
    {| class_name := "TitrariRoScraper"; search := TitrariRoScraper.search |} ].

(** [int(s)] *)
Definition int_ {L} (s : string) : M L Z :=
  match PyStr.parse_int s with
  | Some z => ret z
  | None => raise (ValueError (PyStr.int_error s))
  end.

(** [JSONResponse(content={"subtitles": all_subtitles})]: the content
    handed to the response.  The response object encodes it as UTF-8
    JSON when it is built; on the ASCII text of this model that step
    cannot fail, so it is not a separate outcome here (text that
    cannot be encoded, such as a lone surrogate in a scraped title, is
    outside the model). *)
Record JSONResponse : Type := { subtitles : list SubtitleRecord }.

(** [all_subtitles.extend(subs)] *)
Definition extend {X} (subs : list X) : M (list X) unit :=
  modify_locals (fun all_subtitles => (all_subtitles ++ subs)%list).

(** The endpoint [GET /subtitles/{type}/{id}.json], over the list it
    iterates on.  [all_subtitles = []] is the initial value of the
    locals; [parts[0]] always exists, [split] never returns an empty
    list. *)
Definition get_subtitles_over (scrapers : list Scraper) (type id : string)
  : Fn JSONResponse :=
  def [] (
    logger_info ("Subtitle request - Type: " ++ type ++ ", ID: " ++ id) ;;
    let parts := PyStr.split ":" id in
    let imdb_id := nth 0 parts "" in
    season <- (if (1 <? length parts)%nat
               then s <- int_ (nth 1 parts "") ;; ret (Some s)
               else ret None) ;;
    episode <- (if (2 <? length parts)%nat
                then e <- int_ (nth 2 parts "") ;; ret (Some e)
                else ret None) ;;
    if negb (PyStr.startswith imdb_id "tt") then
      raise (HTTPException 400 "Invalid IMDB ID format")
    else
      for_ scrapers (fun scraper =>
        try_except (
          subs <- call (search scraper imdb_id type season episode) ;;
          extend subs ;;
          time_sleep
        ) (fun e => logger_error ("Error with scraper " ++ class_name scraper
                                  ++ ": " ++ exn_str e))) ;;
      all_subtitles <- get_locals ;;
      logger_info ("Found " ++ PyStr.of_nat (length all_subtitles)
                   ++ " subtitles for " ++ imdb_id) ;;
      ret {| subtitles := all_subtitles |}).

(** [get_subtitles], on the module-level [scrapers]. *)
Definition get_subtitles {lib : Library} (type id : string) : Fn JSONResponse :=
  get_subtitles_over scrapers type id.

(** The status line FastAPI sends for the endpoint's outcome: 200 with
    the JSON body, the status of a raised [HTTPException], and 500
    (internal server error) for any other exception. *)
Definition response_status {A} (o : outcome A) : Z :=
  match o with
  | Ret _ => 200
  | Raise (HTTPException code _) => code
  | Raise _ => 500
  end.

(* ===================================================================== *)
(** ** The three scrapers as one algorithm with a configuration *)
(* ===================================================================== *)

(** The three [search] methods are the same text up to these constants. *)
Record SourceConfig : Type := {
  base_url : string;          (* BASE_URL *)
  search_path : string;       (* between BASE_URL and the imdb id *)
  site : string;              (* the name in log messages and titles *)
  id_tag : string;            (* the head of every sub_id *)
  first_strategy : selector;  (* left operand of the [or] *)
  fallback_strategy : selector (* right operand of the [or] *)
}.

Definition search_url (cfg : SourceConfig) (imdb_id : string) : string :=
  base_url cfg ++ search_path cfg ++ imdb_id.

Definition search_with {lib : Library} (cfg : SourceConfig)
  (imdb_id type : string) (season episode : option Z)
  : Fn (list SubtitleRecord) :=
  def [] (
    try_except (
      logger_info ("Searching " ++ site cfg ++ " with URL: " ++ search_url cfg imdb_id) ;;
      response <- session_get_ (search_url cfg imdb_id) ;;
      if negb (status_code response =? 200)%Z then
        logger_warning (site cfg ++ " returned status "
                        ++ PyStr.of_Z (status_code response))
      else
        soup <- lift (BeautifulSoup (content response)) ;;
        results <- or_ (soup_find_all soup (first_strategy cfg))
                       (soup_find_all soup (fallback_strategy cfg)) ;;
        for_ (enumerate (firstn 10 results)) (fun '(idx, result) =>
          try_except (
            found <- (if tag_name result =? "a" then
                        ret (Some (tag_get result "href" "", get_text result))
                      else
                        match tag_find result "a" with
                        | None => ret None
                        | Some link_tag =>
                            ret (Some (tag_get link_tag "href" "", get_text link_tag))
                        end) ;;
            match found with
            | None => ret tt
            | Some (link, title) =>
                if PyStr.is_empty link || PyStr.is_empty title then ret tt
                else
                  link <- (if negb (PyStr.startswith link "http")
                           then lift (urljoin (base_url cfg) link)
                           else ret link) ;;
                  append {| id := id_tag cfg ++ "_" ++ PyStr.of_nat idx ++ "_" ++ imdb_id;
                            url := link;
                            lang := "rum";
                            title := "[" ++ site cfg ++ "] " ++ title |}
            end
          ) (fun e => logger_error ("Error parsing subtitle entry: " ++ exn_str e)))
    ) (fun e => logger_error ("Error scraping " ++ site cfg ++ ": " ++ exn_str e)) ;;
    subtitles <- get_locals ;;
    ret subtitles).

Inductive adapter : Type := SubtitrariRo | SubsRo | TitrariRo.

Definition config (a : adapter) : SourceConfig :=
  match a with
  | SubtitrariRo =>
      {| base_url := SubtitrariRoScraper.BASE_URL;
         search_path := "/index.php?page=cauta&z7=";
         site := "subtitrari.ro";
         id_tag := "subtitrari";
         first_strategy := ByClass "div" (Exact "title");
         fallback_strategy := ByHref "a" (Regex "subtitrare") |}
  | SubsRo =>
      {| base_url := SubsRoScraper.BASE_URL;
         search_path := "/search.php?q=";
         site := "subs.ro";
         id_tag := "subsro";
         first_strategy := ByHref "a" (Regex "subtitrare|subtitle");
         fallback_strategy := ByClass "div" (Regex "subtitle|result") |}
  | TitrariRo =>
      {| base_url := TitrariRoScraper.BASE_URL;
         search_path := "/index.php?page=cauta&z7=";
         site := "titrari.ro";
         id_tag := "titrari";
         first_strategy := ByHref "a" (Regex "subtitrare|id=");
         fallback_strategy := ByClass "div" (Exact "title") |}
  end.

(** The [search] method of each scraper class. *)
Definition search_of {lib : Library} (a : adapter)
  : string -> string -> option Z -> option Z -> Fn (list SubtitleRecord) :=
  match a with
  | SubtitrariRo => SubtitrariRoScraper.search
  | SubsRo => SubsRoScraper.search
  | TitrariRo => TitrariRoScraper.search
  end.

(** *** What one run of [search] amounts to *)

(** The link and the title read off a matched element; [None] for a
    container without a nested anchor. *)
Definition entry_fields {lib : Library} (result : Tag) : option (string * string) :=
  if tag_name result =? "a" then Some (tag_get result "href" "", get_text result)
  else match tag_find result "a" with
       | None => None
       | Some link_tag => Some (tag_get link_tag "href" "", get_text link_tag)
       end.

(** The value of [link] after the "Make absolute URL" step. *)
Definition resolve_link {lib : Library} (base link : string) : outcome string :=
  if negb (PyStr.startswith link "http") then urljoin base link else Ret link.

(** The fate of one matched element in the loop. *)
Inductive entry_result : Type :=
| Skipped                      (* [continue] *)
| Mapped (r : SubtitleRecord)  (* appended *)
| Failed (e : exn).            (* exception caught in the loop *)

Definition map_entry {lib : Library} (cfg : SourceConfig) (imdb_id : string)
  (entry : nat * Tag) : entry_result :=
  let '(idx, result) := entry in
  match entry_fields result with
  | None => Skipped
  | Some (link, title) =>
      if PyStr.is_empty link || PyStr.is_empty title then Skipped
      else match resolve_link (base_url cfg) link with
           | Raise e => Failed e
           | Ret link' =>
               Mapped {| id := id_tag cfg ++ "_" ++ PyStr.of_nat idx ++ "_" ++ imdb_id;
                         url := link';
                         lang := "rum";
                         title := "[" ++ site cfg ++ "] " ++ title |}
           end
  end.

Definition entry_records {lib : Library} cfg imdb_id (entry : nat * Tag)
  : list SubtitleRecord :=
  match map_entry cfg imdb_id entry with Mapped r => [r] | _ => [] end.

Definition entry_events {lib : Library} cfg imdb_id (entry : nat * Tag)
  : list event :=
  match map_entry cfg imdb_id entry with
  | Failed e => [Log ERROR ("Error parsing subtitle entry: " ++ exn_str e)]
  | _ => []
  end.

(** The match set the [or] of the two [find_all] calls evaluates to. *)
Definition extracted {lib : Library} (cfg : SourceConfig) (soup : Soup) : list Tag :=
  match find_all soup (first_strategy cfg) with
  | [] => find_all soup (fallback_strategy cfg)
  | xs => xs
  end.

Definition extraction_events {lib : Library} (cfg : SourceConfig) (soup : Soup)
  : list event :=
  FindAll (first_strategy cfg) ::
  match find_all soup (first_strategy cfg) with
  | [] => [FindAll (fallback_strategy cfg)]
  | _ => []
  end.

(** The entries the loop visits: the first ten matches, numbered. *)
Definition visited {lib : Library} (cfg : SourceConfig) (soup : Soup)
  : list (nat * Tag) :=
  enumerate (firstn 10 (extracted cfg soup)).

Definition search_result {lib : Library} (cfg : SourceConfig) (imdb_id : string)
  : list SubtitleRecord :=
  match session_get (search_url cfg imdb_id) with
  | Raise _ => []
  | Ret response =>
      if negb (status_code response =? 200)%Z then []
      else match BeautifulSoup (content response) with
           | Raise _ => []
           | Ret soup => flat_map (entry_records cfg imdb_id) (visited cfg soup)
           end
  end.

Definition search_events {lib : Library} (cfg : SourceConfig) (imdb_id : string)
  : list event :=
  Log INFO ("Searching " ++ site cfg ++ " with URL: " ++ search_url cfg imdb_id) ::
  HttpGet (search_url cfg imdb_id) ::
  match session_get (search_url cfg imdb_id) with
  | Raise e => [Log ERROR ("Error scraping " ++ site cfg ++ ": " ++ exn_str e)]
  | Ret response =>
      if negb (status_code response =? 200)%Z then
        [Log WARNING (site cfg ++ " returned status " ++ PyStr.of_Z (status_code response))]
      else match BeautifulSoup (content response) with
           | Raise e => [Log ERROR ("Error scraping " ++ site cfg ++ ": " ++ exn_str e)]
           | Ret soup =>
               (extraction_events cfg soup
                ++ flat_map (entry_events cfg imdb_id) (visited cfg soup))%list
           end
  end.

(** *** Well-formed and malformed entries *)

(** An entry is well formed when it has a link and a title, both non
    empty, and its link can be made absolute; anything else (no nested
    anchor, empty link, empty title, an exception while mapping) is
    malformed. *)
Definition well_formed {lib : Library} (cfg : SourceConfig) (entry : nat * Tag) : bool :=
  match entry_fields (snd entry) with
  | None => false
  | Some (link, title) =>
      negb (PyStr.is_empty link) && negb (PyStr.is_empty title) &&
      match resolve_link (base_url cfg) link with
      | Ret _ => true
      | Raise _ => false
      end
  end.

(** The record of a well-formed entry, from its ordinal, link and title. *)
Definition record_at {lib : Library} (cfg : SourceConfig) (imdb_id : string)
  (entry : nat * Tag) : SubtitleRecord :=
  let link := match entry_fields (snd entry) with Some (l, _) => l | None => "" end in
  let title := match entry_fields (snd entry) with Some (_, tx) => tx | None => "" end in
  {| id := id_tag cfg ++ "_" ++ PyStr.of_nat (fst entry) ++ "_" ++ imdb_id;
     url := match resolve_link (base_url cfg) link with Ret u => u | Raise _ => link end;
     lang := "rum";
     title := "[" ++ site cfg ++ "] " ++ title |}.

(* ===================================================================== *)
(** ** The endpoint, step by step *)
(* ===================================================================== *)

(** [int(parts[k]) if len(parts) > k else None] *)
Definition parse_component (parts : list string) (k : nat) : outcome (option Z) :=
  if (k <? length parts)%nat then
    match PyStr.parse_int (nth k parts "") with
    | Some z => Ret (Some z)
    | None => Raise (ValueError (PyStr.int_error (nth k parts "")))
    end
  else Ret None.

(** Lines 278 to 285 of the endpoint: the parsed identifier, or the
    exception that ends the request. *)
Definition parse_request (id : string) : outcome (string * option Z * option Z) :=
  let parts := PyStr.split ":" id in
  match parse_component parts 1 with
  | Raise e => Raise e
  | Ret season =>
      match parse_component parts 2 with
      | Raise e => Raise e
      | Ret episode =>
          if negb (PyStr.startswith (nth 0 parts "") "tt")
          then Raise (HTTPException 400 "Invalid IMDB ID format")
          else Ret (nth 0 parts "", season, episode)
      end
  end.

(** What one adapter adds to [all_subtitles]. *)
Definition contribution (o : outcome (list SubtitleRecord)) : list SubtitleRecord :=
  match o with
  | Ret subs => subs
  | Raise _ => []
  end.

(** What the loop body does after the call to [search] came back. *)
Definition after_call (scraper : Scraper) (o : outcome (list SubtitleRecord)) : event :=
  match o with
  | Ret _ => Sleep
  | Raise e => Log ERROR ("Error with scraper " ++ class_name scraper ++ ": " ++ exn_str e)
  end.

(** The outcomes of the calls [scraper.search(imdb_id, type, season,
    episode)], one per scraper and in list order, each call starting on
    the trace its predecessors left. *)
Fixpoint adapter_outcomes (scrapers : list Scraper)
  (imdb_id type : string) (season episode : option Z) (t : trace)
  : list (outcome (list SubtitleRecord)) :=
  match scrapers with
  | [] => []
  | scraper :: rest =>
      let '(o, t') := search scraper imdb_id type season episode t in
      o :: adapter_outcomes rest imdb_id type season episode
             (t' ++ [after_call scraper o])%list
  end.

Fixpoint trace_after (scrapers : list Scraper)
  (imdb_id type : string) (season episode : option Z) (t : trace) : trace :=
  match scrapers with
  | [] => t
  | scraper :: rest =>
      let '(o, t') := search scraper imdb_id type season episode t in
      trace_after rest imdb_id type season episode
        (t' ++ [after_call scraper o])%list
  end.

(** The two log lines of the endpoint. *)
Definition request_line (type id : string) : event :=
  Log INFO ("Subtitle request - Type: " ++ type ++ ", ID: " ++ id).

Definition found_line (all_subtitles : list SubtitleRecord) (imdb_id : string) : event :=
  Log INFO ("Found " ++ PyStr.of_nat (length all_subtitles)
            ++ " subtitles for " ++ imdb_id).

(** The URLs fetched, in order. *)
Definition fetched (t : trace) : list string :=
  flat_map (fun ev => match ev with HttpGet u => [u] | _ => [] end) t.

(* ===================================================================== *)
(** ** Absolute URLs *)
(* ===================================================================== *)

(** RFC 3986, section 3.1: a scheme is a letter followed by letters,
    digits, "+", "-" or ".", and ends at the first ":". *)
Definition is_alpha (c : ascii) : bool :=
  let n := nat_of_ascii c in
  (Nat.leb 65 n && Nat.leb n 90) || (Nat.leb 97 n && Nat.leb n 122).

Definition is_scheme_char (c : ascii) : bool :=
  is_alpha c || PyStr.is_digit c || Ascii.eqb c "+" || Ascii.eqb c "-" || Ascii.eqb c ".".

Fixpoint scheme_tail (s : string) : bool :=
  match s with
  | EmptyString => false
  | String c rest =>
      if Ascii.eqb c ":" then true
      else if is_scheme_char c then scheme_tail rest
      else false
  end.

(** An absolute URL starts with a scheme and its colon. *)
Definition is_absolute_url (s : string) : bool :=
  match s with
  | EmptyString => false
  | String c rest => is_alpha c && scheme_tail rest
  end.

(* ===================================================================== *)
(** ** A test double for the libraries *)
(* ===================================================================== *)

(** A small document model on which the scrapers can be run: enough of
    BeautifulSoup to evaluate the selectors of the three scrapers on
    hand-written pages.  It serves the examples only; no property below
    relies on it. *)
Module Fixture.

#[local] Unset Elimination Schemes.
Inductive node : Type :=
| Node (name : string) (classes : list string) (href : option string)
       (text : string) (children : list node).
#[local] Set Elimination Schemes.

Definition node_name (n : node) : string := let 'Node nm _ _ _ _ := n in nm.
Definition node_classes (n : node) : list string := let 'Node _ cl _ _ _ := n in cl.
Definition node_href (n : node) : option string := let 'Node _ _ h _ _ := n in h.
Definition node_text (n : node) : string := let 'Node _ _ _ tx _ := n in tx.
Definition node_children (n : node) : list node := let 'Node _ _ _ _ cs := n in cs.

(** The element and its descendants, in document order. *)
Fixpoint descend (n : node) : list node :=
  match n with
  | Node _ _ _ _ cs => n :: flat_map descend cs
  end.

Definition contains (needle s : string) : bool :=
  match String.index 0 needle s with Some _ => true | None => false end.

(** A string against a plain value or against [re.compile(p).search],
    for patterns that are alternatives of literals. *)
Definition matches (m : matcher) (s : string) : bool :=
  match m with
  | Exact v => s =? v
  | Regex p => existsb (fun alt => contains alt s) (PyStr.split "|" p)
  end.

Definition selects (sel : selector) (n : node) : bool :=
  match sel with
  | ByClass nm m => (node_name n =? nm) && existsb (matches m) (node_classes n)
  | ByHref nm m =>
      (node_name n =? nm) &&
      match node_href n with Some h => matches m h | None => false end
  end.

Definition fx_find_all (soup : list node) (sel : selector) : list node :=
  filter (selects sel) (flat_map descend soup).

Definition fx_get (n : node) (key default : string) : string :=
  if key =? "href" then match node_href n with Some h => h | None => default end
  else default.

Definition fx_get_text (n : node) : string :=
  String.concat "" (map (fun d => PyStr.strip (node_text d)) (descend n)).

Definition fx_find (n : node) (nm : string) : option node :=
  hd_error (filter (fun d => node_name d =? nm) (flat_map descend (node_children n))).

(** What follows "//" up to the first "/", "?" or "#". *)
Fixpoint netloc_of (s : string) : string :=
  match s with
  | String c rest =>
      if Ascii.eqb c "/" || Ascii.eqb c "?" || Ascii.eqb c "#" then EmptyString
      else String c (netloc_of rest)
  | EmptyString => EmptyString
  end.

(** What precedes the first ":". *)
Fixpoint scheme_of (s : string) : string :=
  match s with
  | String c rest => if Ascii.eqb c ":" then EmptyString else String c (scheme_of rest)
  | EmptyString => EmptyString
  end.

(** [urljoin] against a base made of a scheme and a host, as the three
    [BASE_URL]s are: an empty link gives the base; a link with a scheme
    of its own is kept; a link that starts with "//" takes the scheme
    of the base, and raises [ValueError] when its host opens a bracket
    it does not close (or closes one it did not open); a path from the
    root, a query or a fragment is appended to the base; any other
    link is a path below the root.  Dot segments are not removed and a
    link that spells the scheme of the base without a host is not
    rebuilt: the pages of the examples hold no such link. *)
Definition fx_urljoin (base link : string) : outcome string :=
  if PyStr.is_empty link then Ret base
  else if is_absolute_url link then Ret link
  else if String.prefix "//" link then
    let netloc := netloc_of (substring 2 (String.length link) link) in
    if xorb (PyStr.has_char "[" netloc) (PyStr.has_char "]" netloc)
    then Raise (ValueError "Invalid IPv6 URL")
    else Ret (scheme_of base ++ ":" ++ link)
  else if String.prefix "/" link || String.prefix "?" link || String.prefix "#" link
  then Ret (base ++ link)
  else Ret (base ++ "/" ++ link).

(** The libraries over a given network and a given parser. *)
Definition library (web : string -> outcome Response)
  (parse : string -> outcome (list node)) : Library :=
  {| Soup := list node;
     Tag := node;
     session_get := web;
     BeautifulSoup := parse;
     find_all := fx_find_all;
     tag_name := node_name;
     tag_get := fx_get;
     get_text := fx_get_text;
     tag_find := fx_find;
     urljoin := fx_urljoin |}.

(** [<a href=h>tx</a>] and [<div class="title"><a href=h>tx</a></div>] *)
Definition anchor (h tx : string) : node := Node "a" [] (Some h) tx [].
Definition titled (h tx : string) : node := Node "div" ["title"] None "" [anchor h tx].

(** A network that answers every URL with status 200 and the same body,
    and a parser that reads that body as the document [doc]. *)
Definition serving (doc : list node) : Library :=
  library (fun _ => Ret {| status_code := 200; content := "page" |})
          (fun _ => Ret doc).

(** A network that answers every URL with the given status. *)
Definition answering (code : Z) : Library :=
  library (fun _ => Ret {| status_code := code; content := "" |})
          (fun _ => Ret []).

(** A network on which every request times out. *)
Definition unreachable : Library :=
  library (fun _ => Raise (LibraryError "Read timed out."))
          (fun _ => Ret []).

(** Pages for the examples. *)

(** Two listings, each a titled container around a link. *)
Definition two_listings : list node :=
  [ titled "/subtitrare/1" "Film A";
    titled "https://www.example.ro/subtitrare/2" "Film B" ].

(** Well-formed listings mixed with malformed ones: a container without
    an anchor, an empty link, an empty title, a link [urljoin] rejects. *)
Definition mixed_listings : list node :=
  [ titled "/subtitrare/1" "Film A";
    Node "div" ["title"] None "no anchor" [];
    titled "" "no link";
    titled "/subtitrare/4" "";
    titled "//[bad" "broken link";
    titled "/subtitrare/6" "Film F" ].

(** Ten containers without an anchor, then one well-formed listing. *)
Definition crowded_listings : list node :=
  (repeat (Node "div" ["title"] None "" []) 10 ++ [titled "/subtitrare/11" "Film K"])%list.

(** A page-relative link whose first letters are "http". *)
Definition http_named_listing : list node :=
  [ titled "httpdocs/subtitrare-1.html" "Film" ].

(** A page on which both selectors of subtitrari.ro match: a titled
    container, and a bare anchor the fallback selector would pick. *)
Definition both_shapes : list node :=
  [ titled "/film/1" "Film A"; anchor "/subtitrare/9" "Film Z" ].

End Fixture.

(* ===================================================================== *)
(** ** Observations on traces and identifiers *)
(* ===================================================================== *)

(** The number of pauses [time.sleep(0.5)] in a trace. *)
Definition sleeps (t : trace) : nat :=
  length (filter (fun ev => match ev with Sleep => true | _ => false end) t).

(** The selectors queried, in order. *)
Definition queried (t : trace) : list selector :=
  flat_map (fun ev => match ev with FindAll sel => [sel] | _ => [] end) t.

(** The log line of an entry whose mapping raised. *)
Definition entry_error_line (e : exn) : event :=
  Log ERROR ("Error parsing subtitle entry: " ++ exn_str e).

(** The exceptions raised while mapping the given entries: an entry
    raises when it has a link and a title, both non empty, and
    [urljoin] rejects the link. *)
Definition mapping_failures {lib : Library} (cfg : SourceConfig)
  (entries : list (nat * Tag)) : list exn :=
  flat_map (fun entry =>
              match entry_fields (snd entry) with
              | None => []
              | Some (link, title) =>
                  if PyStr.is_empty link || PyStr.is_empty title then []
                  else match resolve_link (base_url cfg) link with
                       | Raise e => [e]
                       | Ret _ => []
                       end
              end) entries.

(** The number of decimal digits of an integer. *)
Definition decimal_digits (z : Z) : nat := String.length (PyStr.of_Z (Z.abs z)).

(** A string without the separator of the identifier. *)
Definition no_colon (s : string) : Prop := ~ In ":"%char (list_ascii_of_string s).

(** A page with bare anchors only: no titled container. *)
Definition anchors_only : list Fixture.node :=
  [ Fixture.anchor "/subtitrare/9" "Film Z"; Fixture.anchor "/despre" "Despre noi" ].

(* ===================================================================== *)
(** ** The transcriptions agree with the configured algorithm *)
(* ===================================================================== *)

Lemma search_of_config {lib : Library} (a : adapter) :
  search_of a = search_with (config a).
Proof. destruct a; reflexivity. Qed.

(* ===================================================================== *)
(** ** Loops *)
(* ===================================================================== *)

(** A loop whose body never raises, appends to the locals and extends
    the trace, does the sum of what its iterations do. *)
Lemma for_accumulate {X R : Type} (body : X -> M (list R) unit)
  (recs : X -> list R) (evs : X -> list event) :
  (forall x l t, body x l t = (Ret tt, (l ++ recs x)%list, (t ++ evs x)%list)) ->
  forall xs l t,
    for_ xs body l t
    = (Ret tt, (l ++ flat_map recs xs)%list, (t ++ flat_map evs xs)%list).
Proof.
  intros Hbody xs. induction xs as [|x xs IH]; intros l t; simpl.
  - unfold ret. now rewrite !app_nil_r.
  - unfold bind. rewrite Hbody, IH. now rewrite <- !app_assoc.
Qed.

Lemma enumerate_from_length {X} (xs : list X) (k : nat) :
  length (enumerate_from k xs) = length xs.
Proof. revert k. induction xs; intros k; simpl; congruence. Qed.

Lemma enumerate_from_fst {X} (xs : list X) (k : nat) :
  map fst (enumerate_from k xs) = seq k (length xs).
Proof. revert k. induction xs; intros k; simpl; [reflexivity | now rewrite IHxs]. Qed.

Lemma enumerate_from_snd {X} (xs : list X) (k : nat) :
  map snd (enumerate_from k xs) = xs.
Proof. revert k. induction xs; intros k; simpl; [reflexivity | now rewrite IHxs]. Qed.

(* ===================================================================== *)
(** ** One run of [search] *)
(* ===================================================================== *)

(** One iteration of the loop of [search]: it never raises, appends the
    record of a mapped entry, logs the exception of a failed one. *)
Lemma entry_step {lib : Library} (cfg : SourceConfig) (imdb_id : string)
  (entry : nat * Tag) (l : list SubtitleRecord) (t : trace) :
  (let '(idx, result) := entry in
   try_except (
     found <- (if tag_name result =? "a" then
                 ret (Some (tag_get result "href" "", get_text result))
               else
                 match tag_find result "a" with
                 | None => ret None
                 | Some link_tag =>
                     ret (Some (tag_get link_tag "href" "", get_text link_tag))
                 end) ;;
     match found with
     | None => ret tt
     | Some (link, title) =>
         if PyStr.is_empty link || PyStr.is_empty title then ret tt
         else
           link <- (if negb (PyStr.startswith link "http")
                    then lift (urljoin (base_url cfg) link)
                    else ret link) ;;
           append {| id := id_tag cfg ++ "_" ++ PyStr.of_nat idx ++ "_" ++ imdb_id;
                     url := link;
                     lang := "rum";
                     title := "[" ++ site cfg ++ "] " ++ title |}
     end
   ) (fun e => logger_error ("Error parsing subtitle entry: " ++ exn_str e))) l t
  = (Ret tt, (l ++ entry_records cfg imdb_id entry)%list,
     (t ++ entry_events cfg imdb_id entry)%list).
Proof.
  destruct entry as [idx result].
  unfold entry_records, entry_events, map_entry, entry_fields, resolve_link.
  unfold try_except, bind.
  destruct (tag_name result =? "a").
  - cbn -[String.append].
    destruct (PyStr.is_empty (tag_get result "href" "") || PyStr.is_empty (get_text result));
      cbn -[String.append]; [now rewrite !app_nil_r|].
    destruct (negb (PyStr.startswith (tag_get result "href" "") "http"));
      cbn -[String.append].
    + destruct (urljoin (base_url cfg) (tag_get result "href" "")); cbn -[String.append];
        now rewrite ?app_nil_r.
    + now rewrite ?app_nil_r.
  - destruct (tag_find result "a") as [link_tag|]; cbn -[String.append];
      [|now rewrite !app_nil_r].
    destruct (PyStr.is_empty (tag_get link_tag "href" "") || PyStr.is_empty (get_text link_tag));
      cbn -[String.append]; [now rewrite !app_nil_r|].
    destruct (negb (PyStr.startswith (tag_get link_tag "href" "") "http"));
      cbn -[String.append].
    + destruct (urljoin (base_url cfg) (tag_get link_tag "href" "")); cbn -[String.append];
        now rewrite ?app_nil_r.
    + now rewrite ?app_nil_r.
Qed.

Ltac run_loop cfg imdb_id :=
  match goal with
  | |- context [for_ ?xs ?body ?l ?t] =>
      rewrite (for_accumulate body (entry_records cfg imdb_id)
                 (entry_events cfg imdb_id) (entry_step cfg imdb_id) xs l t)
  end.

(** A run of [search] never raises; its result and the events it adds
    to the trace are [search_result] and [search_events]. *)
Lemma search_with_run {lib : Library} (cfg : SourceConfig)
  (imdb_id type : string) (season episode : option Z) (t : trace) :
  search_with cfg imdb_id type season episode t
  = (Ret (search_result cfg imdb_id), (t ++ search_events cfg imdb_id)%list).
Proof.
  unfold search_with, def, search_result, search_events.
  unfold try_except at 1. unfold bind at 1. unfold try_except at 1.
  unfold bind at 1. unfold logger_info at 1. unfold emit at 1.
  unfold bind at 1. unfold session_get_ at 1. unfold bind at 1. unfold emit at 1.
  unfold lift at 1.
  destruct (session_get (search_url cfg imdb_id)) as [response|ex];
    cbn -[for_ enumerate firstn String.append].
  2:{ now rewrite <- !app_assoc. }
  destruct (status_code response =? 200)%Z; cbn -[for_ enumerate firstn String.append].
  2:{ now rewrite <- !app_assoc. }
  destruct (BeautifulSoup (content response)) as [soup|ex];
    cbn -[for_ enumerate firstn String.append].
  2:{ now rewrite <- !app_assoc. }
  unfold visited, extracted, extraction_events, or_, soup_find_all.
  unfold bind, emit, ret.
  destruct (find_all soup (first_strategy cfg)) as [|x xs] eqn:Hfirst;
    cbn -[for_ enumerate firstn String.append].
  - run_loop cfg imdb_id.
    cbn -[enumerate firstn String.append]. now rewrite <- !app_assoc.
  - run_loop cfg imdb_id.
    cbn -[enumerate firstn String.append]. now rewrite <- !app_assoc.
Qed.

(* ===================================================================== *)
(** ** One run of the endpoint *)
(* ===================================================================== *)

(** The loop over the scrapers: every scraper is called, in list order;
    a call that returns extends [all_subtitles], a call that raises
    leaves it as it is. *)
Lemma scrapers_loop (scrapers : list Scraper)
  (imdb_id type : string) (season episode : option Z) :
  forall (l : list SubtitleRecord) (t : trace),
    for_ scrapers (fun scraper =>
      try_except (
        subs <- call (search scraper imdb_id type season episode) ;;
        extend subs ;;
        time_sleep
      ) (fun e => logger_error ("Error with scraper " ++ class_name scraper
                                ++ ": " ++ exn_str e))) l t
    = (Ret tt,
       (l ++ concat (map contribution
                       (adapter_outcomes scrapers imdb_id type season episode t)))%list,
       trace_after scrapers imdb_id type season episode t).
Proof.
  induction scrapers as [|scraper rest IH]; intros l t.
  - cbn. now rewrite app_nil_r.
  - cbn -[String.append]. unfold bind at 1. unfold try_except at 1.
    unfold bind at 1. unfold call at 1.
    destruct (search scraper imdb_id type season episode t) as [[subs|e] t'].
    + cbn -[String.append]. rewrite IH. now rewrite <- app_assoc.
    + cbn -[String.append]. now rewrite IH.
Qed.

(** A run of the endpoint: the request is logged and parsed; a request
    that does not parse ends there; otherwise the scrapers run. *)
Lemma get_subtitles_over_run (scrapers : list Scraper) (type id : string) (t : trace) :
  get_subtitles_over scrapers type id t
  = match parse_request id with
    | Raise e => (Raise e, (t ++ [request_line type id])%list)
    | Ret (imdb_id, season, episode) =>
        let t1 := (t ++ [request_line type id])%list in
        let all_subtitles :=
          concat (map contribution
                    (adapter_outcomes scrapers imdb_id type season episode t1)) in
        (Ret {| subtitles := all_subtitles |},
         (trace_after scrapers imdb_id type season episode t1
          ++ [found_line all_subtitles imdb_id])%list)
    end.
Proof.
  unfold get_subtitles_over, def, parse_request, parse_component, request_line, found_line.
  unfold bind at 1. unfold logger_info at 1. unfold emit at 1.
  unfold bind at 1. unfold bind at 1.
  destruct (1 <? length (PyStr.split ":" id))%nat.
  - unfold int_ at 1.
    destruct (PyStr.parse_int (nth 1 (PyStr.split ":" id) "")) as [s|];
      [|reflexivity].
    unfold ret at 1. unfold ret at 1. unfold bind at 1. unfold bind at 1.
    destruct (2 <? length (PyStr.split ":" id))%nat.
    + unfold int_ at 1.
      destruct (PyStr.parse_int (nth 2 (PyStr.split ":" id) "")) as [e|];
        [|reflexivity].
      unfold ret at 1. unfold ret at 1.
      destruct (negb (PyStr.startswith (nth 0 (PyStr.split ":" id) "") "tt"));
        [reflexivity|].
      unfold bind at 1. rewrite scrapers_loop. reflexivity.
    + unfold ret at 1.
      destruct (negb (PyStr.startswith (nth 0 (PyStr.split ":" id) "") "tt"));
        [reflexivity|].
      unfold bind at 1. rewrite scrapers_loop. reflexivity.
  - unfold ret at 1. unfold bind at 1.
    destruct (2 <? length (PyStr.split ":" id))%nat.
    + unfold bind at 1. unfold int_ at 1.
      destruct (PyStr.parse_int (nth 2 (PyStr.split ":" id) "")) as [e|];
        [|reflexivity].
      unfold ret at 1. unfold ret at 1.
      destruct (negb (PyStr.startswith (nth 0 (PyStr.split ":" id) "") "tt"));
        [reflexivity|].
      unfold bind at 1. rewrite scrapers_loop. reflexivity.
    + unfold ret at 1.
      destruct (negb (PyStr.startswith (nth 0 (PyStr.split ":" id) "") "tt"));
        [reflexivity|].
      unfold bind at 1. rewrite scrapers_loop. reflexivity.
Qed.

(* ===================================================================== *)
(** ** The scrapers *)
(* ===================================================================== *)

Lemma search_of_run {lib : Library} (a : adapter)
  (imdb_id type : string) (season episode : option Z) (t : trace) :
  search_of a imdb_id type season episode t
  = (Ret (search_result (config a) imdb_id),
     (t ++ search_events (config a) imdb_id)%list).
Proof. rewrite search_of_config. apply search_with_run. Qed.

Lemma entry_records_well_formed {lib : Library} (cfg : SourceConfig)
  (imdb_id : string) (entry : nat * Tag) :
  entry_records cfg imdb_id entry
  = if well_formed cfg entry then [record_at cfg imdb_id entry] else [].
Proof.
  destruct entry as [idx result].
  unfold entry_records, map_entry, well_formed, record_at. cbn [fst snd].
  destruct (entry_fields result) as [[link title0]|]; [|reflexivity].
  destruct (PyStr.is_empty link); [reflexivity|].
  destruct (PyStr.is_empty title0); [reflexivity|].
  cbn [orb negb andb].
  destruct (resolve_link (base_url cfg) link); reflexivity.
Qed.

Lemma kept_records {lib : Library} (cfg : SourceConfig) (imdb_id : string)
  (entries : list (nat * Tag)) :
  flat_map (entry_records cfg imdb_id) entries
  = map (record_at cfg imdb_id) (filter (well_formed cfg) entries).
Proof.
  induction entries as [|entry rest IH]; [reflexivity|].
  cbn [flat_map filter]. rewrite entry_records_well_formed, IH.
  destruct (well_formed cfg entry); reflexivity.
Qed.

Lemma visited_length {lib : Library} (cfg : SourceConfig) (soup : Soup) :
  length (visited cfg soup) <= 10.
Proof.
  unfold visited, enumerate. rewrite enumerate_from_length.
  apply firstn_le_length.
Qed.

Lemma search_result_length {lib : Library} (cfg : SourceConfig) (imdb_id : string) :
  length (search_result cfg imdb_id) <= 10.
Proof.
  unfold search_result.
  destruct (session_get (search_url cfg imdb_id)) as [response|]; [|cbn; lia].
  destruct (negb (status_code response =? 200)%Z); [cbn; lia|].
  destruct (BeautifulSoup (content response)) as [soup|]; [|cbn; lia].
  rewrite kept_records, length_map.
  eapply Nat.le_trans; [apply filter_length_le | apply visited_length].
Qed.

(** C2: whatever the network and the parser do, [search] returns to its
    caller and never raises.  When the fetch raises (a timeout, a
    connection error), when the status is not 200, or when the body
    cannot be parsed, the failure is logged (an error, a warning, an
    error) and the list returned is empty. *)
Theorem search_never_raises {lib : Library} (a : adapter)
  (imdb_id type : string) (season episode : option Z) (t : trace) :
  let url := search_url (config a) imdb_id in
  let started := (t ++ [Log INFO ("Searching " ++ site (config a) ++ " with URL: " ++ url);
                        HttpGet url])%list in
  (exists subs t', search_of a imdb_id type season episode t = (Ret subs, t'))
  /\ (forall ex, session_get url = Raise ex ->
        exists msg, search_of a imdb_id type season episode t
                    = (Ret [], (started ++ [Log ERROR msg])%list))
  /\ (forall response, session_get url = Ret response ->
        status_code response <> 200%Z ->
        exists msg, search_of a imdb_id type season episode t
                    = (Ret [], (started ++ [Log WARNING msg])%list))
  /\ (forall response ex, session_get url = Ret response ->
        status_code response = 200%Z ->
        BeautifulSoup (content response) = Raise ex ->
        exists msg, search_of a imdb_id type season episode t
                    = (Ret [], (started ++ [Log ERROR msg])%list)).
Proof.
  intros url started. rewrite search_of_run. repeat split.
  - eauto.
  - intros ex Hget. unfold search_result, search_events. fold url. rewrite Hget.
    eexists. subst started. rewrite <- app_assoc. reflexivity.
  - intros response Hget Hstatus. unfold search_result, search_events. fold url.
    rewrite Hget. apply Z.eqb_neq in Hstatus. rewrite Hstatus. cbn [negb].
    eexists. subst started. rewrite <- app_assoc. reflexivity.
  - intros response ex Hget Hstatus Hparse. unfold search_result, search_events.
    fold url. rewrite Hget, Hstatus, Hparse. cbn [negb Z.eqb Pos.eqb].
    eexists. subst started. rewrite <- app_assoc. reflexivity.
Qed.

(** C4: the list returned by [search] has at most 10 records, whatever
    the number of matches in the document. *)
Theorem search_returns_at_most_ten {lib : Library} (a : adapter)
  (imdb_id type : string) (season episode : option Z) (t : trace) :
  exists subs t',
    search_of a imdb_id type season episode t = (Ret subs, t')
    /\ length subs <= 10.
Proof.
  rewrite search_of_run. do 2 eexists. split; [reflexivity|].
  apply search_result_length.
Qed.

(** C9: [search] returns the same list, and does the same calls, for all
    values of [season] and [episode]. *)
Theorem search_ignores_season_and_episode {lib : Library} (a : adapter)
  (imdb_id type : string) (season episode season' episode' : option Z) (t : trace) :
  search_of a imdb_id type season episode t
  = search_of a imdb_id type season' episode' t.
Proof. destruct a; reflexivity. Qed.

(** The loop logs errors and nothing else. *)
Lemma entry_events_are_logs {lib : Library} (cfg : SourceConfig) (imdb_id : string)
  (entries : list (nat * Tag)) (ev : event) :
  In ev (flat_map (entry_events cfg imdb_id) entries) -> exists msg, ev = Log ERROR msg.
Proof.
  rewrite in_flat_map. intros [entry [_ Hin]].
  unfold entry_events in Hin.
  destruct (map_entry cfg imdb_id entry); cbn in Hin; try contradiction.
  destruct Hin as [<-|[]]. eauto.
Qed.

(** When the page is fetched and parsed, [search] returns the records of
    the well-formed entries among the first ten matches. *)
Lemma search_of_page {lib : Library} (a : adapter)
  (imdb_id type : string) (season episode : option Z) (t : trace)
  (response : Response) (soup : Soup) :
  session_get (search_url (config a) imdb_id) = Ret response ->
  status_code response = 200%Z ->
  BeautifulSoup (content response) = Ret soup ->
  search_of a imdb_id type season episode t
  = (Ret (map (record_at (config a) imdb_id)
            (filter (well_formed (config a)) (visited (config a) soup))),
     (t ++ Log INFO ("Searching " ++ site (config a) ++ " with URL: "
                     ++ search_url (config a) imdb_id)
        :: HttpGet (search_url (config a) imdb_id)
        :: extraction_events (config a) soup
        ++ flat_map (entry_events (config a) imdb_id) (visited (config a) soup))%list).
Proof.
  intros Hget Hstatus Hparse. rewrite search_of_run.
  unfold search_result, search_events.
  rewrite Hget, Hstatus, Hparse. cbn [negb Z.eqb Pos.eqb].
  now rewrite kept_records.
Qed.

(** C5, as the code has it: the cap of ten applies to the raw matches,
    before any entry is looked at.  For a page that is fetched and
    parsed, the list returned is made of the records of the well-formed
    entries among the first ten matches of the winning strategy, in
    their order on the page; the malformed entries among these ten, and
    only they, are dropped. *)
Theorem malformed_entries_among_first_ten_dropped {lib : Library} (a : adapter)
  (imdb_id type : string) (season episode : option Z) (t : trace)
  (response : Response) (soup : Soup) :
  session_get (search_url (config a) imdb_id) = Ret response ->
  status_code response = 200%Z ->
  BeautifulSoup (content response) = Ret soup ->
  exists t',
    search_of a imdb_id type season episode t
    = (Ret (map (record_at (config a) imdb_id)
              (filter (well_formed (config a))
                 (enumerate (firstn 10 (extracted (config a) soup))))), t').
Proof.
  intros Hget Hstatus Hparse.
  rewrite (search_of_page a imdb_id type season episode t Hget Hstatus Hparse).
  eexists. reflexivity.
Qed.

Lemma malformed_entries_among_first_ten_dropped_witness :
  exists t',
    search_of (lib := Fixture.serving Fixture.mixed_listings) SubtitrariRo
      "tt0111161" "movie" None None []
    = (Ret [ {| id := "subtitrari_0_tt0111161";
                url := "https://www.subtitrari.ro/subtitrare/1";
                lang := "rum";
                title := "[subtitrari.ro] Film A" |};
             {| id := "subtitrari_5_tt0111161";
                url := "https://www.subtitrari.ro/subtitrare/6";
                lang := "rum";
                title := "[subtitrari.ro] Film F" |} ], t').
Proof.
  exact (@malformed_entries_among_first_ten_dropped
           (Fixture.serving Fixture.mixed_listings) SubtitrariRo
           "tt0111161" "movie" None None []
           {| status_code := 200; content := "page" |} Fixture.mixed_listings
           eq_refl eq_refl eq_refl).
Defined.

(** C5, as stated, fails on a page with more than ten matches: the
    eleventh match of subtitrari.ro is a well-formed listing, the ten
    before it are containers without an anchor, and [search] returns
    the empty list. *)
Lemma well_formed_entry_after_tenth_match_dropped :
  nth_error (find_all (Library := Fixture.serving Fixture.crowded_listings)
               Fixture.crowded_listings (first_strategy (config SubtitrariRo))) 10
  = Some (Fixture.titled "/subtitrare/11" "Film K")
  /\ well_formed (lib := Fixture.serving Fixture.crowded_listings)
       (config SubtitrariRo) (10, Fixture.titled "/subtitrare/11" "Film K") = true
  /\ fst (SubtitrariRoScraper.search (lib := Fixture.serving Fixture.crowded_listings)
            "tt0111161" "movie" None None []) = Ret [].
Proof. repeat split; reflexivity. Qed.

Lemma queried_app (t1 t2 : trace) : queried (t1 ++ t2)%list = (queried t1 ++ queried t2)%list.
Proof. apply flat_map_app. Qed.

Lemma queried_entry_events {lib : Library} (cfg : SourceConfig) (imdb_id : string)
  (entries : list (nat * Tag)) :
  queried (flat_map (entry_events cfg imdb_id) entries) = [].
Proof.
  induction entries as [|entry rest IH]; [reflexivity|].
  cbn [flat_map]. rewrite queried_app, IH, app_nil_r.
  unfold entry_events. destruct (map_entry cfg imdb_id entry); reflexivity.
Qed.

(** C8: on a fetched and parsed page the two selectors of a scraper
    are tried in order and the first one with a match wins.  When the
    first selector matches at least one element, the fallback selector
    is not evaluated (no [find_all] call is made for it) and the list
    returned is built from the matches of the first selector alone.
    When the first selector matches nothing, the fallback selector is
    evaluated next and the list returned is built from its matches.
    In no case are the two match sets merged. *)
Theorem first_matching_strategy_wins {lib : Library} (a : adapter)
  (imdb_id type : string) (season episode : option Z) (t : trace)
  (response : Response) (soup : Soup) :
  session_get (search_url (config a) imdb_id) = Ret response ->
  status_code response = 200%Z ->
  BeautifulSoup (content response) = Ret soup ->
  (find_all soup (first_strategy (config a)) <> [] ->
   exists evs,
     search_of a imdb_id type season episode t
     = (Ret (map (record_at (config a) imdb_id)
               (filter (well_formed (config a))
                  (enumerate (firstn 10 (find_all soup (first_strategy (config a))))))),
        (t ++ evs)%list)
     /\ In (FindAll (first_strategy (config a))) evs
     /\ ~ In (FindAll (fallback_strategy (config a))) evs
     /\ queried evs = [first_strategy (config a)])
  /\ (find_all soup (first_strategy (config a)) = [] ->
      exists evs,
        search_of a imdb_id type season episode t
        = (Ret (map (record_at (config a) imdb_id)
                  (filter (well_formed (config a))
                     (enumerate
                        (firstn 10 (find_all soup (fallback_strategy (config a))))))),
           (t ++ evs)%list)
        /\ queried evs = [first_strategy (config a); fallback_strategy (config a)]).
Proof.
  intros Hget Hstatus Hparse.
  rewrite (search_of_page a imdb_id type season episode t Hget Hstatus Hparse).
  unfold visited, extracted, extraction_events. split.
  - intros Hfirst.
    destruct (find_all soup (first_strategy (config a))) as [|x xs] eqn:Hmatches;
      [contradiction|].
    eexists. split; [reflexivity|]. split; [|split].
    + right. right. left. reflexivity.
    + intros [Hin|[Hin|[Hin|Hin]]]; try discriminate.
      * destruct a; discriminate.
      * apply entry_events_are_logs in Hin. destruct Hin as [msg Hmsg]. discriminate.
    + cbn [queried flat_map app].
      change (flat_map _ (flat_map ?f ?l)) with (queried (flat_map f l)).
      now rewrite queried_entry_events.
  - intros Hfirst. rewrite Hfirst.
    eexists. split; [reflexivity|].
    cbn [queried flat_map app].
    change (flat_map _ (flat_map ?f ?l)) with (queried (flat_map f l)).
    now rewrite queried_entry_events.
Qed.

Lemma first_matching_strategy_wins_witness :
  (exists evs,
     search_of (lib := Fixture.serving Fixture.both_shapes) SubtitrariRo
       "tt0111161" "movie" None None []
     = (Ret [ {| id := "subtitrari_0_tt0111161";
                 url := "https://www.subtitrari.ro/film/1";
                 lang := "rum";
                 title := "[subtitrari.ro] Film A" |} ], ([] ++ evs)%list)
     /\ In (FindAll (ByClass "div" (Exact "title"))) evs
     /\ ~ In (FindAll (ByHref "a" (Regex "subtitrare"))) evs
     /\ queried evs = [ByClass "div" (Exact "title")])
  /\ (exists evs,
        search_of (lib := Fixture.serving anchors_only) SubtitrariRo
          "tt0111161" "movie" None None []
        = (Ret [ {| id := "subtitrari_0_tt0111161";
                    url := "https://www.subtitrari.ro/subtitrare/9";
                    lang := "rum";
                    title := "[subtitrari.ro] Film Z" |} ], ([] ++ evs)%list)
        /\ queried evs = [ByClass "div" (Exact "title");
                          ByHref "a" (Regex "subtitrare")]).
Proof.
  split.
  - refine (proj1 (@first_matching_strategy_wins
                     (Fixture.serving Fixture.both_shapes) SubtitrariRo
                     "tt0111161" "movie" None None []
                     {| status_code := 200; content := "page" |} Fixture.both_shapes
                     eq_refl eq_refl eq_refl) _).
    discriminate.
  - exact (proj2 (@first_matching_strategy_wins
                    (Fixture.serving anchors_only) SubtitrariRo
                    "tt0111161" "movie" None None []
                    {| status_code := 200; content := "page" |} anchors_only
                    eq_refl eq_refl eq_refl) eq_refl).
Defined.

(** The fallback selector of that page does have a match: it is the
    evaluation order, not the page, that keeps it out of the result. *)
Example fallback_would_match :
  find_all (Library := Fixture.serving Fixture.both_shapes)
    Fixture.both_shapes (fallback_strategy (config SubtitrariRo))
  = [Fixture.anchor "/subtitrare/9" "Film Z"].
Proof. reflexivity. Qed.

(** The "Make absolute URL" step: a link that starts with "http" is
    kept as it is, any other link goes through [urljoin]. *)
Lemma resolve_link_cases {lib : Library} (base link : string) :
  (PyStr.startswith link "http" = true -> resolve_link base link = Ret link)
  /\ (PyStr.startswith link "http" = false -> resolve_link base link = urljoin base link).
Proof.
  unfold resolve_link. split; intros ->; reflexivity.
Qed.

(** C7 at a failing input: the page of subtitrari.ro lists one entry
    whose link is the page-relative path "httpdocs/subtitrare-1.html".
    The link starts with "http", so it is not resolved against the base
    URL, and the record carries a [url] that is not absolute. *)
Theorem http_named_relative_link_left_relative :
  exists r t',
    SubtitrariRoScraper.search (lib := Fixture.serving Fixture.http_named_listing)
      "tt0111161" "movie" None None [] = (Ret [r], t')
    /\ url r = "httpdocs/subtitrare-1.html"
    /\ is_absolute_url (url r) = false.
Proof. do 2 eexists. repeat split. Qed.

(* ===================================================================== *)
(** ** Identifiers of the records *)
(* ===================================================================== *)

Lemma append_cancel_l (p a b : string) : p ++ a = p ++ b -> a = b.
Proof.
  induction p as [|c p IH]; cbn; intros H; [assumption|].
  injection H as H. now apply IH.
Qed.

(** Below ten, two ordinals that print the same are the same. *)
Lemma ordinal_digit_inj (i j : nat) (rest : string) :
  i < 10 -> j < 10 ->
  PyStr.of_nat i ++ "_" ++ rest = PyStr.of_nat j ++ "_" ++ rest -> i = j.
Proof.
  intros Hi Hj H.
  do 10 (destruct i as [|i];
         [ do 10 (destruct j as [|j];
                  [ first [reflexivity | cbn in H; discriminate H] | ]); lia | ]).
  lia.
Qed.

Lemma sub_id_inj (tag imdb_id : string) (i j : nat) :
  i < 10 -> j < 10 ->
  tag ++ "_" ++ PyStr.of_nat i ++ "_" ++ imdb_id
  = tag ++ "_" ++ PyStr.of_nat j ++ "_" ++ imdb_id ->
  i = j.
Proof.
  intros Hi Hj H. apply append_cancel_l in H. cbn in H. injection H as H.
  now apply (@ordinal_digit_inj i j imdb_id).
Qed.

(** The identifiers of two different scrapers differ, whatever follows
    the tag. *)
Lemma sub_id_tags_apart (a b : adapter) (x y : string) :
  id_tag (config a) ++ "_" ++ x = id_tag (config b) ++ "_" ++ y -> a = b.
Proof. destruct a, b; cbn; intros H; first [reflexivity | discriminate H]. Qed.

Lemma enumerate_from_bounds {X} (xs : list X) (k i : nat) (x : X) :
  In (i, x) (enumerate_from k xs) -> k <= i < k + length xs.
Proof.
  revert k. induction xs as [|y xs IH]; intros k; cbn; [contradiction|].
  intros [H|H].
  - injection H as <- _. lia.
  - apply IH in H. lia.
Qed.

(** Dropping entries keeps the ordinals of the others pairwise different. *)
Lemma kept_ordinals_NoDup {X} (keep : nat * X -> bool) (entries : list (nat * X)) :
  NoDup (map fst entries) -> NoDup (map fst (filter keep entries)).
Proof.
  intros Hall. induction entries as [|entry rest IH]; [constructor|].
  cbn [map] in Hall. apply NoDup_cons_iff in Hall. destruct Hall as [Hfresh Hrest].
  cbn [filter]. destruct (keep entry); [|now apply IH].
  cbn [map]. apply NoDup_cons; [|now apply IH].
  intros Hin. apply Hfresh.
  apply in_map_iff in Hin. destruct Hin as [other [Hsame Hin]].
  apply filter_In in Hin. destruct Hin as [Hin _].
  rewrite <- Hsame. now apply in_map.
Qed.

(** The entries [search] keeps: their ordinals are below ten and
    pairwise different. *)
Lemma search_result_shape {lib : Library} (cfg : SourceConfig) (imdb_id : string) :
  exists entries : list (nat * Tag),
    search_result cfg imdb_id = map (record_at cfg imdb_id) entries
    /\ NoDup (map fst entries)
    /\ Forall (fun entry => fst entry < 10) entries.
Proof.
  unfold search_result.
  destruct (session_get (search_url cfg imdb_id)) as [response|];
    [|exists []; repeat constructor].
  destruct (negb (status_code response =? 200)%Z); [exists []; repeat constructor|].
  destruct (BeautifulSoup (content response)) as [soup|];
    [|exists []; repeat constructor].
  exists (filter (well_formed cfg) (visited cfg soup)).
  split; [apply kept_records|]. split.
  - apply kept_ordinals_NoDup. unfold visited, enumerate.
    rewrite enumerate_from_fst. apply seq_NoDup.
  - apply Forall_forall. intros [i x] Hin. apply filter_In in Hin.
    destruct Hin as [Hin _]. unfold visited, enumerate in Hin.
    apply enumerate_from_bounds in Hin. cbn [fst].
    pose proof (firstn_le_length 10 (extracted cfg soup)). lia.
Qed.

Lemma source_ids_NoDup {lib : Library} (cfg : SourceConfig) (imdb_id : string) :
  NoDup (map id (search_result cfg imdb_id)).
Proof.
  destruct (search_result_shape cfg imdb_id) as [entries [-> [Hnodup Hlt]]].
  rewrite map_map. induction entries as [|entry rest IH]; cbn [map]; [constructor|].
  cbn [map] in Hnodup. inversion Hnodup as [|? ? Hnotin Hrest]; subst.
  inversion Hlt as [|? ? Hentry Hothers]; subst.
  constructor; [|now apply IH].
  intros Hin. apply in_map_iff in Hin. destruct Hin as [other [Heq Hin]].
  apply Hnotin. apply in_map_iff. exists other. split; [|assumption].
  rewrite Forall_forall in Hothers. specialize (Hothers other Hin).
  cbn in Heq. now apply sub_id_inj in Heq.
Qed.

Lemma source_records {lib : Library} (a : adapter) (imdb_id : string) (r : SubtitleRecord) :
  In r (search_result (config a) imdb_id) ->
  lang r = "rum"
  /\ exists idx tx,
       idx < 10
       /\ id r = id_tag (config a) ++ "_" ++ PyStr.of_nat idx ++ "_" ++ imdb_id
       /\ title r = "[" ++ site (config a) ++ "] " ++ tx.
Proof.
  destruct (search_result_shape (config a) imdb_id) as [entries [-> [_ Hlt]]].
  intros Hin. apply in_map_iff in Hin. destruct Hin as [entry [<- Hin]].
  rewrite Forall_forall in Hlt. specialize (Hlt entry Hin).
  split; [reflexivity|].
  exists (fst entry). eexists. split; [assumption|]. split; reflexivity.
Qed.

(* ===================================================================== *)
(** ** The aggregating endpoint *)
(* ===================================================================== *)

Lemma adapter_outcomes_length (scrapers : list Scraper)
  (imdb_id type : string) (season episode : option Z) (t : trace) :
  length (adapter_outcomes scrapers imdb_id type season episode t) = length scrapers.
Proof.
  revert t. induction scrapers as [|scraper rest IH]; intros t; cbn; [reflexivity|].
  destruct (search scraper imdb_id type season episode t) as [o t'].
  cbn. now rewrite IH.
Qed.

Lemma adapter_outcomes_app (before after : list Scraper)
  (imdb_id type : string) (season episode : option Z) (t : trace) :
  adapter_outcomes (before ++ after) imdb_id type season episode t
  = (adapter_outcomes before imdb_id type season episode t
     ++ adapter_outcomes after imdb_id type season episode
          (trace_after before imdb_id type season episode t))%list.
Proof.
  revert t. induction before as [|scraper rest IH]; intros t; cbn; [reflexivity|].
  destruct (search scraper imdb_id type season episode t) as [o t'].
  cbn. now rewrite IH.
Qed.

Lemma fetched_app (t1 t2 : trace) :
  fetched (t1 ++ t2)%list = (fetched t1 ++ fetched t2)%list.
Proof. apply flat_map_app. Qed.

Lemma fetched_entry_events {lib : Library} (cfg : SourceConfig) (imdb_id : string)
  (entries : list (nat * Tag)) :
  fetched (flat_map (entry_events cfg imdb_id) entries) = [].
Proof.
  induction entries as [|entry rest IH]; [reflexivity|].
  cbn [flat_map]. rewrite fetched_app, IH, app_nil_r.
  unfold entry_events. destruct (map_entry cfg imdb_id entry); reflexivity.
Qed.

(** One run of [search] fetches one URL: the search URL of its site. *)
Lemma fetched_search_events {lib : Library} (cfg : SourceConfig) (imdb_id : string) :
  fetched (search_events cfg imdb_id) = [search_url cfg imdb_id].
Proof.
  unfold search_events. cbn [fetched flat_map app]. f_equal.
  destruct (session_get (search_url cfg imdb_id)) as [response|]; [|reflexivity].
  destruct (negb (status_code response =? 200)%Z); [reflexivity|].
  destruct (BeautifulSoup (content response)) as [soup|]; [|reflexivity].
  change (fetched (extraction_events cfg soup
                   ++ flat_map (entry_events cfg imdb_id) (visited cfg soup))%list = []).
  rewrite fetched_app, fetched_entry_events, app_nil_r.
  unfold extraction_events.
  destruct (find_all soup (first_strategy cfg)); reflexivity.
Qed.

(** The three configured scrapers always return. *)
Lemma configured_outcomes {lib : Library}
  (imdb_id type : string) (season episode : option Z) (t : trace) :
  adapter_outcomes scrapers imdb_id type season episode t
  = [ Ret (search_result (config SubtitrariRo) imdb_id);
      Ret (search_result (config SubsRo) imdb_id);
      Ret (search_result (config TitrariRo) imdb_id) ].
Proof.
  unfold scrapers. cbn [adapter_outcomes search].
  change (@SubtitrariRoScraper.search lib) with (search_of SubtitrariRo).
  change (@SubsRoScraper.search lib) with (search_of SubsRo).
  change (@TitrariRoScraper.search lib) with (search_of TitrariRo).
  now rewrite !search_of_run.
Qed.

Lemma configured_trace {lib : Library}
  (imdb_id type : string) (season episode : option Z) (t : trace) :
  trace_after scrapers imdb_id type season episode t
  = (t ++ search_events (config SubtitrariRo) imdb_id ++ [Sleep]
       ++ search_events (config SubsRo) imdb_id ++ [Sleep]
       ++ search_events (config TitrariRo) imdb_id ++ [Sleep])%list.
Proof.
  unfold scrapers. cbn [trace_after search].
  change (@SubtitrariRoScraper.search lib) with (search_of SubtitrariRo).
  change (@SubsRoScraper.search lib) with (search_of SubsRo).
  change (@TitrariRoScraper.search lib) with (search_of TitrariRo).
  rewrite !search_of_run. cbn [after_call]. now rewrite <- !app_assoc.
Qed.

Lemma parse_request_imdb (request_id imdb_id : string) (season episode : option Z) :
  parse_request request_id = Ret (imdb_id, season, episode) ->
  imdb_id = nth 0 (PyStr.split ":" request_id) ""
  /\ PyStr.startswith imdb_id "tt" = true.
Proof.
  unfold parse_request.
  destruct (parse_component (PyStr.split ":" request_id) 1); [|discriminate].
  destruct (parse_component (PyStr.split ":" request_id) 2); [|discriminate].
  destruct (PyStr.startswith (nth 0 (PyStr.split ":" request_id) "") "tt") eqn:Htt;
    cbn [negb]; [|discriminate].
  intros H. injection H as <- _ _. split; [reflexivity | assumption].
Qed.

(** C1: for every list of scrapers and every request that passes the
    parsing and the validation of the identifier, the endpoint calls
    the [search] of every scraper once, in list order, and answers with
    the concatenation of what the calls returned, in that order and
    with nothing removed or moved.  A scraper whose call raises adds
    nothing, the error is logged under its class name, and the scrapers
    after it are called all the same.  On the module-level list the
    pages are fetched in the order subtitrari.ro, subs.ro, titrari.ro. *)
Theorem aggregator_concatenates_in_order (the_scrapers : list Scraper)
  (type request_id imdb_id : string) (season episode : option Z) (t : trace) :
  parse_request request_id = Ret (imdb_id, season, episode) ->
  let t1 := (t ++ [request_line type request_id])%list in
  let outs := adapter_outcomes the_scrapers imdb_id type season episode t1 in
  fst (get_subtitles_over the_scrapers type request_id t)
  = Ret {| subtitles := concat (map contribution outs) |}
  /\ length outs = length the_scrapers
  /\ (forall before scraper after e t',
        the_scrapers = (before ++ scraper :: after)%list ->
        search scraper imdb_id type season episode
          (trace_after before imdb_id type season episode t1) = (Raise e, t') ->
        concat (map contribution outs)
        = (concat (map contribution
                     (adapter_outcomes before imdb_id type season episode t1))
           ++ concat (map contribution
                        (adapter_outcomes after imdb_id type season episode
                           (t' ++ [Log ERROR ("Error with scraper "
                                              ++ class_name scraper ++ ": "
                                              ++ exn_str e)]))))%list)
  /\ (forall lib : Library,
        the_scrapers = @scrapers lib ->
        fetched (snd (get_subtitles_over the_scrapers type request_id t))
        = (fetched t ++ [ search_url (config SubtitrariRo) imdb_id;
                          search_url (config SubsRo) imdb_id;
                          search_url (config TitrariRo) imdb_id ])%list).
Proof.
  intros Hparse t1 outs. rewrite get_subtitles_over_run, Hparse. cbn [fst snd].
  fold t1. fold outs. repeat split.
  - apply adapter_outcomes_length.
  - intros before scraper after e t' -> Hraise. subst outs.
    rewrite adapter_outcomes_app. cbn [adapter_outcomes]. rewrite Hraise.
    rewrite map_app, concat_app. reflexivity.
  - intros lib ->. rewrite configured_trace. subst t1.
    rewrite !fetched_app, !fetched_search_events. cbn [fetched flat_map app].
    now rewrite !app_nil_r.
Qed.

Lemma aggregator_concatenates_in_order_witness :
  fst (get_subtitles_over
         [ {| class_name := "SubtitleScraper"; search := SubtitleScraper.search |};
           {| class_name := "SubtitrariRoScraper";
              search := SubtitrariRoScraper.search
                          (lib := Fixture.serving Fixture.two_listings) |} ]
         "series" "tt0903747:1:5" [])
  = Ret {| subtitles :=
             [ {| id := "subtitrari_0_tt0903747";
                  url := "https://www.subtitrari.ro/subtitrare/1";
                  lang := "rum";
                  title := "[subtitrari.ro] Film A" |};
               {| id := "subtitrari_1_tt0903747";
                  url := "https://www.example.ro/subtitrare/2";
                  lang := "rum";
                  title := "[subtitrari.ro] Film B" |} ] |}.
Proof.
  exact (proj1 (@aggregator_concatenates_in_order
                  [ {| class_name := "SubtitleScraper";
                       search := SubtitleScraper.search |};
                    {| class_name := "SubtitrariRoScraper";
                       search := SubtitrariRoScraper.search
                                   (lib := Fixture.serving Fixture.two_listings) |} ]
                  "series" "tt0903747:1:5" "tt0903747" (Some 1%Z) (Some 5%Z) []
                  eq_refl)).
Defined.

(** C6: in a response of the endpoint every record has [lang] equal to
    "rum", a title that starts with the bracketed name of its site, and
    an id made of the tag of its scraper, an ordinal and the requested
    imdb id; no two records of the response share an id. *)
Theorem response_records_tagged_and_unique {lib : Library}
  (type request_id : string) (t : trace) (resp : JSONResponse) (t' : trace) :
  get_subtitles type request_id t = (Ret resp, t') ->
  let imdb_id := nth 0 (PyStr.split ":" request_id) "" in
  NoDup (map id (subtitles resp))
  /\ Forall (fun r =>
               lang r = "rum"
               /\ exists a idx tx,
                    idx < 10
                    /\ id r = id_tag (config a) ++ "_" ++ PyStr.of_nat idx ++ "_" ++ imdb_id
                    /\ title r = "[" ++ site (config a) ++ "] " ++ tx)
            (subtitles resp).
Proof.
  unfold get_subtitles. rewrite get_subtitles_over_run.
  destruct (parse_request request_id) as [[[imdb season] episode]|] eqn:Hparse;
    [|discriminate].
  apply parse_request_imdb in Hparse. destruct Hparse as [-> _].
  cbv zeta. rewrite configured_outcomes. cbn [map contribution concat].
  rewrite app_nil_r. set (imdb_id := nth 0 (PyStr.split ":" request_id) "").
  intros H.
  assert (Hsubs : subtitles resp
                  = (search_result (config SubtitrariRo) imdb_id
                     ++ search_result (config SubsRo) imdb_id
                     ++ search_result (config TitrariRo) imdb_id)%list)
    by (injection H as <- _; reflexivity).
  rewrite Hsubs. clear H Hsubs. rewrite !map_app.
  split.
  - apply NoDup_app; [apply source_ids_NoDup| |].
    + apply NoDup_app; [apply source_ids_NoDup | apply source_ids_NoDup |].
      intros x Hx Hy.
      apply in_map_iff in Hx. destruct Hx as [rx [<- Hx]].
      apply in_map_iff in Hy. destruct Hy as [ry [Heq Hy]].
      apply source_records in Hx. destruct Hx as [_ [i [_ [_ [Hidx _]]]]].
      apply source_records in Hy. destruct Hy as [_ [j [_ [_ [Hidy _]]]]].
      rewrite Hidx, Hidy in Heq. apply sub_id_tags_apart in Heq. discriminate.
    + intros x Hx Hy.
      apply in_map_iff in Hx. destruct Hx as [rx [<- Hx]].
      apply source_records in Hx. destruct Hx as [_ [i [_ [_ [Hidx _]]]]].
      apply in_app_or in Hy. destruct Hy as [Hy|Hy];
        apply in_map_iff in Hy; destruct Hy as [ry [Heq Hy]];
        apply source_records in Hy; destruct Hy as [_ [j [_ [_ [Hidy _]]]]];
        rewrite Hidx, Hidy in Heq; apply sub_id_tags_apart in Heq; discriminate.
  - rewrite !Forall_app. repeat split; apply Forall_forall; intros r Hin;
      apply source_records in Hin; destruct Hin as [Hlang [idx [tx Hrest]]];
      (split; [assumption|]); eauto.
Qed.

Lemma response_records_tagged_and_unique_witness :
  NoDup [ "subtitrari_0_tt0111161"; "subtitrari_1_tt0111161";
          "subsro_0_tt0111161"; "subsro_1_tt0111161";
          "titrari_0_tt0111161"; "titrari_1_tt0111161" ].
Proof.
  exact (proj1 (@response_records_tagged_and_unique
                  (Fixture.serving Fixture.two_listings)
                  "movie" "tt0111161" []
                  (match fst (get_subtitles (lib := Fixture.serving Fixture.two_listings)
                                "movie" "tt0111161" []) with
                   | Ret resp => resp
                   | Raise _ => {| subtitles := [] |}
                   end)
                  (snd (get_subtitles (lib := Fixture.serving Fixture.two_listings)
                          "movie" "tt0111161" []))
                  eq_refl)).
Defined.

(** A request whose leading component does not start with "tt" never
    reaches a scraper: the run ends with an exception right after the
    request is logged.  The exception is the 400 of the validation when
    the season and the episode, if any, are integers. *)
Lemma non_tt_id_never_reaches_scrapers (the_scrapers : list Scraper)
  (type request_id : string) (t : trace) :
  PyStr.startswith (nth 0 (PyStr.split ":" request_id) "") "tt" = false ->
  exists e,
    get_subtitles_over the_scrapers type request_id t
    = (Raise e, (t ++ [request_line type request_id])%list)
    /\ (forall season episode,
          parse_component (PyStr.split ":" request_id) 1 = Ret season ->
          parse_component (PyStr.split ":" request_id) 2 = Ret episode ->
          e = HTTPException 400 "Invalid IMDB ID format").
Proof.
  intros Htt. rewrite get_subtitles_over_run. unfold parse_request.
  destruct (parse_component (PyStr.split ":" request_id) 1) as [season|e1].
  - destruct (parse_component (PyStr.split ":" request_id) 2) as [episode|e2].
    + rewrite Htt. cbn [negb]. eexists. split; [reflexivity|]. reflexivity.
    + eexists. split; [reflexivity|]. intros ? ? _ H. discriminate H.
  - eexists. split; [reflexivity|]. intros ? ? H. discriminate H.
Qed.

(** C3 at a failing input: the identifier "xx123:abc" does not start
    with "tt", yet the request does not end with the 400 of the
    validation: [int("abc")] raises [ValueError] first, and the
    exception leaves the endpoint (a 500 for the client).  No scraper
    is called. *)
Theorem non_tt_id_with_bad_season_not_rejected_as_invalid {lib : Library} (t : trace) :
  PyStr.startswith (nth 0 (PyStr.split ":" "xx123:abc") "") "tt" = false
  /\ get_subtitles "movie" "xx123:abc" t
     = (Raise (ValueError "invalid literal for int() with base 10: 'abc'"),
        (t ++ [request_line "movie" "xx123:abc"])%list)
  /\ response_status (fst (get_subtitles "movie" "xx123:abc" t)) = 500%Z.
Proof.
  unfold get_subtitles. rewrite get_subtitles_over_run. repeat split.
Qed.

(** C10: when the second or the third component of the identifier is
    not something [int] accepts, the endpoint raises [ValueError] while
    parsing, before the validation of the "tt" prefix and before any
    scraper is called; the exception is not caught, so the client gets
    a 500 and not the 400, whatever the leading component is. *)
Theorem non_numeric_component_raises_value_error (the_scrapers : list Scraper)
  (type request_id : string) (t : trace) :
  (exists k, (k = 1 \/ k = 2)
             /\ k < length (PyStr.split ":" request_id)
             /\ PyStr.parse_int (nth k (PyStr.split ":" request_id) "") = None) ->
  exists msg,
    get_subtitles_over the_scrapers type request_id t
    = (Raise (ValueError msg), (t ++ [request_line type request_id])%list)
    /\ response_status (fst (get_subtitles_over the_scrapers type request_id t)) = 500%Z.
Proof.
  intros [k [Hk [Hlt Hnone]]]. rewrite get_subtitles_over_run.
  unfold parse_request, parse_component.
  destruct Hk as [-> | ->].
  - apply Nat.ltb_lt in Hlt. rewrite Hlt, Hnone. eexists. split; reflexivity.
  - assert (H1 : (1 <? length (PyStr.split ":" request_id))%nat = true)
      by (apply Nat.ltb_lt; lia).
    apply Nat.ltb_lt in Hlt. rewrite H1.
    destruct (PyStr.parse_int (nth 1 (PyStr.split ":" request_id) "")).
    + rewrite Hlt, Hnone. eexists. split; reflexivity.
    + eexists. split; reflexivity.
Qed.

Lemma non_numeric_component_raises_value_error_witness :
  exists msg,
    get_subtitles (lib := Fixture.serving Fixture.two_listings) "series" "tt123:abc" []
    = (Raise (ValueError msg), [request_line "series" "tt123:abc"])
    /\ response_status
         (fst (get_subtitles (lib := Fixture.serving Fixture.two_listings)
                 "series" "tt123:abc" [])) = 500%Z.
Proof.
  apply (@non_numeric_component_raises_value_error
           (@scrapers (Fixture.serving Fixture.two_listings)) "series" "tt123:abc" []).
  exists 1. repeat split; [left; reflexivity | cbn; lia].
Defined.

(* ===================================================================== *)
(** ** Worked examples *)
(* ===================================================================== *)

Example split_plain : PyStr.split ":" "tt1234567" = ["tt1234567"].
Proof. reflexivity. Qed.

Example split_episode : PyStr.split ":" "tt1234567:1:5" = ["tt1234567"; "1"; "5"].
Proof. reflexivity. Qed.

Example split_trailing : PyStr.split ":" "tt1:" = ["tt1"; ""].
Proof. reflexivity. Qed.

Example parse_int_samples :
  PyStr.parse_int "5" = Some 5%Z /\ PyStr.parse_int " -12 " = Some (-12)%Z /\
  PyStr.parse_int "1_000" = Some 1000%Z /\ PyStr.parse_int "abc" = None /\
  PyStr.parse_int "" = None /\ PyStr.parse_int "1__0" = None /\
  PyStr.parse_int "7_" = None.
Proof. repeat split; reflexivity. Qed.

Example of_nat_samples :
  PyStr.of_nat 0 = "0" /\ PyStr.of_nat 9 = "9" /\ PyStr.of_nat 10 = "10" /\
  PyStr.of_Z 200 = "200" /\ PyStr.of_Z (-1) = "-1".
Proof. repeat split; reflexivity. Qed.

Example parse_request_plain :
  parse_request "tt0111161" = Ret ("tt0111161", None, None).
Proof. reflexivity. Qed.

Example parse_request_episode :
  parse_request "tt1234567:1:5" = Ret ("tt1234567", Some 1%Z, Some 5%Z).
Proof. reflexivity. Qed.

Example parse_request_rejected :
  parse_request "nm0000151:1:5" = Raise (HTTPException 400 "Invalid IMDB ID format").
Proof. reflexivity. Qed.

Example absolute_url_samples :
  is_absolute_url "https://www.subtitrari.ro/subtitrare/1" = true
  /\ is_absolute_url "ftp://example.org/a.zip" = true
  /\ is_absolute_url "/subtitrare/1" = false
  /\ is_absolute_url "httpdocs/subtitrare-1.html" = false.
Proof. repeat split; reflexivity. Qed.

(** A site that answers 500: one warning, no record, no exception. *)
Example search_on_http_500 :
  SubsRoScraper.search (lib := Fixture.answering 500) "tt0111161" "movie" None None []
  = (Ret [],
     [ Log INFO "Searching subs.ro with URL: https://www.subs.ro/search.php?q=tt0111161";
       HttpGet "https://www.subs.ro/search.php?q=tt0111161";
       Log WARNING "subs.ro returned status 500" ]).
Proof. reflexivity. Qed.

(** A site that cannot be reached: one error, no record, no exception. *)
Example search_on_timeout :
  TitrariRoScraper.search (lib := Fixture.unreachable) "tt0111161" "movie" None None []
  = (Ret [],
     [ Log INFO "Searching titrari.ro with URL: https://www.titrari.ro/index.php?page=cauta&z7=tt0111161";
       HttpGet "https://www.titrari.ro/index.php?page=cauta&z7=tt0111161";
       Log ERROR "Error scraping titrari.ro: Read timed out." ]).
Proof. reflexivity. Qed.

(** Three sites with two listings each: six records, grouped by site in
    the configured order. *)
Example end_to_end_six_records :
  option_map (fun resp => map id (subtitles resp))
    (match fst (get_subtitles (lib := Fixture.serving Fixture.two_listings)
                  "movie" "tt0111161" []) with
     | Ret resp => Some resp
     | Raise _ => None
     end)
  = Some [ "subtitrari_0_tt0111161"; "subtitrari_1_tt0111161";
           "subsro_0_tt0111161"; "subsro_1_tt0111161";
           "titrari_0_tt0111161"; "titrari_1_tt0111161" ].
Proof. reflexivity. Qed.

(** A scraper that raises is logged under its class name; the scraper
    after it runs. *)
Example raising_scraper_is_isolated :
  snd (get_subtitles_over
         [ {| class_name := "SubtitleScraper"; search := SubtitleScraper.search |};
           {| class_name := "SubsRoScraper";
              search := SubsRoScraper.search (lib := Fixture.answering 404) |} ]
         "movie" "tt0111161" [])
  = [ Log INFO "Subtitle request - Type: movie, ID: tt0111161";
      Log ERROR "Error with scraper SubtitleScraper: ";
      Log INFO "Searching subs.ro with URL: https://www.subs.ro/search.php?q=tt0111161";
      HttpGet "https://www.subs.ro/search.php?q=tt0111161";
      Log WARNING "subs.ro returned status 404";
      Sleep;
      Log INFO "Found 0 subtitles for tt0111161" ].
Proof. reflexivity. Qed.

(* ===================================================================== *)
(** ** Further properties of the endpoint *)
(* ===================================================================== *)

(** On the module-level scrapers the answer depends on the parsed
    identifier alone. *)
Lemma configured_response {lib : Library} (type request_id : string) (t : trace) :
  fst (get_subtitles type request_id t)
  = match parse_request request_id with
    | Raise e => Raise e
    | Ret (imdb_id, _, _) =>
        Ret {| subtitles := (search_result (config SubtitrariRo) imdb_id
                             ++ search_result (config SubsRo) imdb_id
                             ++ search_result (config TitrariRo) imdb_id)%list |}
    end.
Proof.
  unfold get_subtitles. rewrite get_subtitles_over_run.
  destruct (parse_request request_id) as [[[imdb_id season] episode]|e];
    [|reflexivity].
  cbv zeta. rewrite configured_outcomes. cbn [fst map contribution concat].
  now rewrite app_nil_r.
Qed.

(** X2: a response of the endpoint holds at most 30 records, ten per
    site. *)
Theorem response_holds_at_most_thirty {lib : Library}
  (type request_id : string) (t : trace) (resp : JSONResponse) (t' : trace) :
  get_subtitles type request_id t = (Ret resp, t') ->
  length (subtitles resp) <= 30.
Proof.
  intros Hrun. pose proof (configured_response type request_id t) as Hresp.
  rewrite Hrun in Hresp. cbn [fst] in Hresp.
  destruct (parse_request request_id) as [[[imdb_id season] episode]|e];
    [|discriminate Hresp].
  pose proof (search_result_length (config SubtitrariRo) imdb_id) as H1.
  pose proof (search_result_length (config SubsRo) imdb_id) as H2.
  pose proof (search_result_length (config TitrariRo) imdb_id) as H3.
  set (l1 := search_result (config SubtitrariRo) imdb_id) in *.
  set (l2 := search_result (config SubsRo) imdb_id) in *.
  set (l3 := search_result (config TitrariRo) imdb_id) in *.
  injection Hresp as ->. cbn [subtitles]. rewrite !length_app. lia.
Qed.

Lemma response_holds_at_most_thirty_witness :
  length (subtitles
            (match fst (get_subtitles (lib := Fixture.serving Fixture.mixed_listings)
                          "movie" "tt0111161" []) with
             | Ret resp => resp
             | Raise _ => {| subtitles := [] |}
             end)) <= 30.
Proof.
  exact (@response_holds_at_most_thirty
           (Fixture.serving Fixture.mixed_listings) "movie" "tt0111161" [] _
           (snd (get_subtitles (lib := Fixture.serving Fixture.mixed_listings)
                   "movie" "tt0111161" []))
           eq_refl).
Defined.

(** X3: the answer of the endpoint depends on the imdb id alone: two
    requests for the same imdb id get the same answer, whatever their
    [type], season and episode are and whatever was done before. *)
Theorem response_depends_on_imdb_id_only {lib : Library}
  (type type' request_id request_id' imdb_id : string)
  (season episode season' episode' : option Z) (t t' : trace) :
  parse_request request_id = Ret (imdb_id, season, episode) ->
  parse_request request_id' = Ret (imdb_id, season', episode') ->
  fst (get_subtitles type request_id t) = fst (get_subtitles type' request_id' t').
Proof.
  intros H H'. rewrite !configured_response, H, H'. reflexivity.
Qed.

Lemma response_depends_on_imdb_id_only_witness :
  fst (get_subtitles (lib := Fixture.serving Fixture.two_listings)
         "movie" "tt0903747" [])
  = fst (get_subtitles (lib := Fixture.serving Fixture.two_listings)
           "series" "tt0903747:2:7" [Sleep]).
Proof.
  exact (@response_depends_on_imdb_id_only
           (Fixture.serving Fixture.two_listings)
           "movie" "series" "tt0903747" "tt0903747:2:7" "tt0903747"
           None None (Some 2%Z) (Some 7%Z) [] [Sleep] eq_refl eq_refl).
Defined.

Lemma sleeps_app (t1 t2 : trace) : sleeps (t1 ++ t2)%list = sleeps t1 + sleeps t2.
Proof. unfold sleeps. now rewrite filter_app, length_app. Qed.

Lemma sleeps_entry_events {lib : Library} (cfg : SourceConfig) (imdb_id : string)
  (entries : list (nat * Tag)) :
  sleeps (flat_map (entry_events cfg imdb_id) entries) = 0.
Proof.
  induction entries as [|entry rest IH]; [reflexivity|].
  cbn [flat_map]. rewrite sleeps_app, IH.
  unfold entry_events. destruct (map_entry cfg imdb_id entry); reflexivity.
Qed.

(** A scraper never pauses. *)
Lemma sleeps_search_events {lib : Library} (cfg : SourceConfig) (imdb_id : string) :
  sleeps (search_events cfg imdb_id) = 0.
Proof.
  unfold search_events.
  change (sleeps (?a :: ?b :: ?rest)) with (sleeps rest).
  destruct (session_get (search_url cfg imdb_id)) as [response|]; [|reflexivity].
  destruct (negb (status_code response =? 200)%Z); [reflexivity|].
  destruct (BeautifulSoup (content response)) as [soup|]; [|reflexivity].
  rewrite sleeps_app, sleeps_entry_events. unfold extraction_events.
  destruct (find_all soup (first_strategy cfg)); reflexivity.
Qed.

(** X4: the endpoint pauses once after each of the three sites, the
    last one included, and also after a site that could not be fetched
    or parsed: a served request holds the request line, then for each
    site in turn the events of its search (one fetch of its search URL,
    no pause) followed by one pause, then the line that counts the
    records of the answer. *)
Theorem one_pause_after_each_site {lib : Library}
  (type request_id imdb_id : string) (season episode : option Z) (t : trace) :
  parse_request request_id = Ret (imdb_id, season, episode) ->
  exists ev1 ev2 ev3 all_subtitles,
    get_subtitles type request_id t
    = (Ret {| subtitles := all_subtitles |},
       (t ++ request_line type request_id
          :: ev1 ++ Sleep
          :: ev2 ++ Sleep
          :: ev3 ++ [Sleep; found_line all_subtitles imdb_id])%list)
    /\ (sleeps ev1 = 0 /\ fetched ev1 = [search_url (config SubtitrariRo) imdb_id])
    /\ (sleeps ev2 = 0 /\ fetched ev2 = [search_url (config SubsRo) imdb_id])
    /\ (sleeps ev3 = 0 /\ fetched ev3 = [search_url (config TitrariRo) imdb_id]).
Proof.
  intros Hparse.
  exists (search_events (config SubtitrariRo) imdb_id),
         (search_events (config SubsRo) imdb_id),
         (search_events (config TitrariRo) imdb_id).
  eexists. split.
  - unfold get_subtitles. rewrite get_subtitles_over_run, Hparse. cbv zeta.
    rewrite configured_trace. f_equal.
    rewrite <- !app_assoc. cbn [app]. reflexivity.
  - repeat split; first [apply sleeps_search_events | apply fetched_search_events].
Qed.

Lemma one_pause_after_each_site_witness :
  exists ev1 ev2 ev3 all_subtitles,
    get_subtitles (lib := Fixture.unreachable) "movie" "tt0111161" []
    = (Ret {| subtitles := all_subtitles |},
       ([] ++ request_line "movie" "tt0111161"
           :: ev1 ++ Sleep
           :: ev2 ++ Sleep
           :: ev3 ++ [Sleep; found_line all_subtitles "tt0111161"])%list)
    /\ (sleeps ev1 = 0 /\ fetched ev1 = [search_url (config SubtitrariRo) "tt0111161"])
    /\ (sleeps ev2 = 0 /\ fetched ev2 = [search_url (config SubsRo) "tt0111161"])
    /\ (sleeps ev3 = 0 /\ fetched ev3 = [search_url (config TitrariRo) "tt0111161"]).
Proof.
  exact (@one_pause_after_each_site Fixture.unreachable
           "movie" "tt0111161" "tt0111161" None None [] eq_refl).
Defined.

(* ===================================================================== *)
(** ** Further properties of the scrapers *)
(* ===================================================================== *)

(** X5: one call of [search] fetches one URL, the search URL of its
    site with the imdb id appended as it is; this holds on every path,
    failures included (nothing is fetched twice).  The call queries the
    document at most twice and never pauses. *)
Theorem search_fetches_its_url_once {lib : Library} (a : adapter)
  (imdb_id type : string) (season episode : option Z) (t : trace) :
  fetched (snd (search_of a imdb_id type season episode t))
  = (fetched t ++ [(base_url (config a) ++ search_path (config a) ++ imdb_id)%string])%list
  /\ sleeps (snd (search_of a imdb_id type season episode t)) = sleeps t
  /\ length (queried (snd (search_of a imdb_id type season episode t)))
     <= length (queried t) + 2.
Proof.
  rewrite search_of_run. cbn [snd]. repeat split.
  - now rewrite fetched_app, fetched_search_events.
  - rewrite sleeps_app, sleeps_search_events. lia.
  - rewrite queried_app, length_app. apply Nat.add_le_mono_l.
    unfold search_events. cbn [queried flat_map app].
    destruct (session_get (search_url (config a) imdb_id)) as [response|]; [|cbn; lia].
    destruct (negb (status_code response =? 200)%Z); [cbn; lia|].
    destruct (BeautifulSoup (content response)) as [soup|]; [|cbn; lia].
    change (length (queried (extraction_events (config a) soup
                             ++ flat_map (entry_events (config a) imdb_id)
                                  (visited (config a) soup))%list) <= 2).
    rewrite queried_app, queried_entry_events, app_nil_r. unfold extraction_events.
    destruct (find_all soup (first_strategy (config a))); cbn; lia.
Qed.

(** X6: when the first selector of a scraper matches nothing on a
    fetched and parsed page, the fallback selector is queried next and
    the list returned is built from its first ten matches (the empty
    list when it matches nothing either, without any warning). *)
Theorem fallback_strategy_used_when_first_is_empty {lib : Library} (a : adapter)
  (imdb_id type : string) (season episode : option Z) (t : trace)
  (response : Response) (soup : Soup) :
  session_get (search_url (config a) imdb_id) = Ret response ->
  status_code response = 200%Z ->
  BeautifulSoup (content response) = Ret soup ->
  find_all soup (first_strategy (config a)) = [] ->
  exists evs,
    search_of a imdb_id type season episode t
    = (Ret (map (record_at (config a) imdb_id)
              (filter (well_formed (config a))
                 (enumerate (firstn 10 (find_all soup (fallback_strategy (config a))))))),
       (t ++ evs)%list)
    /\ queried evs = [first_strategy (config a); fallback_strategy (config a)]
    /\ (find_all soup (fallback_strategy (config a)) = [] ->
        forall ev, In ev evs -> forall msg, ev <> Log WARNING msg /\ ev <> Log ERROR msg).
Proof.
  intros Hget Hstatus Hparse Hfirst.
  rewrite (search_of_page a imdb_id type season episode t Hget Hstatus Hparse).
  unfold visited, extracted, extraction_events. rewrite Hfirst.
  eexists. split; [reflexivity|]. split.
  - cbn [queried flat_map app].
    change (flat_map _ (flat_map ?f ?l)) with (queried (flat_map f l)).
    now rewrite queried_entry_events.
  - intros ->. cbn. intros ev [<-|[<-|[<-|[<-|[]]]]] msg; split; discriminate.
Qed.

Lemma fallback_strategy_used_when_first_is_empty_witness :
  exists evs,
    search_of (lib := Fixture.serving anchors_only) SubtitrariRo
      "tt0111161" "movie" None None []
    = (Ret [ {| id := "subtitrari_0_tt0111161";
                url := "https://www.subtitrari.ro/subtitrare/9";
                lang := "rum";
                title := "[subtitrari.ro] Film Z" |} ], ([] ++ evs)%list)
    /\ queried evs = [ByClass "div" (Exact "title"); ByHref "a" (Regex "subtitrare")]
    /\ (Fixture.fx_find_all anchors_only (ByHref "a" (Regex "subtitrare")) = [] ->
        forall ev, In ev evs -> forall msg, ev <> Log WARNING msg /\ ev <> Log ERROR msg).
Proof.
  exact (@fallback_strategy_used_when_first_is_empty
           (Fixture.serving anchors_only) SubtitrariRo
           "tt0111161" "movie" None None []
           {| status_code := 200; content := "page" |} anchors_only
           eq_refl eq_refl eq_refl eq_refl).
Defined.

Lemma entry_events_failures {lib : Library} (cfg : SourceConfig) (imdb_id : string)
  (entries : list (nat * Tag)) :
  flat_map (entry_events cfg imdb_id) entries
  = map entry_error_line (mapping_failures cfg entries).
Proof.
  unfold mapping_failures.
  induction entries as [|[idx result] rest IH]; [reflexivity|].
  cbn [flat_map]. rewrite map_app, IH. f_equal.
  unfold entry_events, map_entry. cbn [snd].
  destruct (entry_fields result) as [[link title0]|]; [|reflexivity].
  destruct (PyStr.is_empty link || PyStr.is_empty title0); [reflexivity|].
  destruct (resolve_link (base_url cfg) link); reflexivity.
Qed.

(** X7: on a fetched and parsed page, [search] logs one error per
    visited entry whose link [urljoin] rejected, in page order, and
    nothing else after its queries: an entry dropped for a missing
    anchor, an empty link or an empty title leaves no trace. *)
Theorem mapping_exceptions_logged_other_drops_silent {lib : Library} (a : adapter)
  (imdb_id type : string) (season episode : option Z) (t : trace)
  (response : Response) (soup : Soup) :
  session_get (search_url (config a) imdb_id) = Ret response ->
  status_code response = 200%Z ->
  BeautifulSoup (content response) = Ret soup ->
  snd (search_of a imdb_id type season episode t)
  = (t ++ Log INFO ("Searching " ++ site (config a) ++ " with URL: "
                    ++ search_url (config a) imdb_id)
       :: HttpGet (search_url (config a) imdb_id)
       :: extraction_events (config a) soup
       ++ map entry_error_line
            (mapping_failures (config a)
               (enumerate (firstn 10 (extracted (config a) soup)))))%list.
Proof.
  intros Hget Hstatus Hparse.
  rewrite (search_of_page a imdb_id type season episode t Hget Hstatus Hparse).
  cbn [snd]. now rewrite entry_events_failures.
Qed.

Lemma mapping_exceptions_logged_other_drops_silent_witness :
  snd (search_of (lib := Fixture.serving Fixture.mixed_listings) SubtitrariRo
         "tt0111161" "movie" None None [])
  = [ Log INFO "Searching subtitrari.ro with URL: https://www.subtitrari.ro/index.php?page=cauta&z7=tt0111161";
      HttpGet "https://www.subtitrari.ro/index.php?page=cauta&z7=tt0111161";
      FindAll (ByClass "div" (Exact "title"));
      Log ERROR "Error parsing subtitle entry: Invalid IPv6 URL" ].
Proof.
  exact (@mapping_exceptions_logged_other_drops_silent
           (Fixture.serving Fixture.mixed_listings) SubtitrariRo
           "tt0111161" "movie" None None []
           {| status_code := 200; content := "page" |} Fixture.mixed_listings
           eq_refl eq_refl eq_refl).
Defined.

Lemma in_enumerate_from_firstn {X} (xs : list X) (n k i : nat) (x : X) :
  In (i, x) (enumerate_from k (firstn n xs))
  <-> k <= i < k + n /\ nth_error xs (i - k) = Some x.
Proof.
  revert n k. induction xs as [|y xs IH]; intros n k.
  - rewrite firstn_nil. cbn. split; [contradiction|].
    intros [_ H]. destruct (i - k); discriminate H.
  - destruct n as [|n]; cbn [firstn enumerate_from In].
    + split; [contradiction | lia].
    + rewrite IH. split.
      * intros [H|[Hle H]].
        -- injection H as <- <-. rewrite Nat.sub_diag. split; [lia | reflexivity].
        -- split; [lia|]. replace (i - k) with (S (i - S k)) by lia. exact H.
      * intros [Hle H]. destruct (Nat.eq_dec i k) as [->|Hne].
        -- left. rewrite Nat.sub_diag in H. cbn in H. now injection H as ->.
        -- right. split; [lia|].
           replace (i - k) with (S (i - S k)) in H by lia. exact H.
Qed.

(** X8: where a record comes from.  On a fetched and parsed page, the
    records returned are those of the well-formed matches at the
    positions 0 to 9 of the winning strategy, and a record keeps the
    position of its match as ordinal: the ordinals are not renumbered
    when entries before it are dropped. *)
Theorem record_ordinal_is_match_position {lib : Library} (a : adapter)
  (imdb_id type : string) (season episode : option Z) (t : trace)
  (response : Response) (soup : Soup) (r : SubtitleRecord) :
  session_get (search_url (config a) imdb_id) = Ret response ->
  status_code response = 200%Z ->
  BeautifulSoup (content response) = Ret soup ->
  In r (contribution (fst (search_of a imdb_id type season episode t)))
  <-> exists position result,
        position < 10
        /\ nth_error (extracted (config a) soup) position = Some result
        /\ well_formed (config a) (position, result) = true
        /\ r = record_at (config a) imdb_id (position, result).
Proof.
  intros Hget Hstatus Hparse.
  rewrite (search_of_page a imdb_id type season episode t Hget Hstatus Hparse).
  cbn [fst contribution]. unfold visited, enumerate. rewrite in_map_iff. split.
  - intros [[position result] [<- Hin]]. apply filter_In in Hin.
    destruct Hin as [Hin Hwf]. apply in_enumerate_from_firstn in Hin.
    destruct Hin as [Hlt Hnth]. rewrite Nat.sub_0_r in Hnth.
    exists position, result. repeat split; [lia | assumption | assumption].
  - intros [position [result [Hlt [Hnth [Hwf ->]]]]].
    exists (position, result). split; [reflexivity|].
    apply filter_In. split; [|assumption].
    apply in_enumerate_from_firstn. rewrite Nat.sub_0_r. split; [lia | assumption].
Qed.

Lemma record_ordinal_is_match_position_witness :
  In {| id := "subtitrari_5_tt0111161";
        url := "https://www.subtitrari.ro/subtitrare/6";
        lang := "rum";
        title := "[subtitrari.ro] Film F" |}
     (contribution
        (fst (search_of (lib := Fixture.serving Fixture.mixed_listings) SubtitrariRo
                "tt0111161" "movie" None None [])))
  <-> exists position result,
        position < 10
        /\ nth_error (extracted (lib := Fixture.serving Fixture.mixed_listings)
                        (config SubtitrariRo) Fixture.mixed_listings) position
           = Some result
        /\ well_formed (lib := Fixture.serving Fixture.mixed_listings)
             (config SubtitrariRo) (position, result) = true
        /\ {| id := "subtitrari_5_tt0111161";
              url := "https://www.subtitrari.ro/subtitrare/6";
              lang := "rum";
              title := "[subtitrari.ro] Film F" |}
           = record_at (lib := Fixture.serving Fixture.mixed_listings)
               (config SubtitrariRo) "tt0111161" (position, result).
Proof.
  exact (@record_ordinal_is_match_position
           (Fixture.serving Fixture.mixed_listings) SubtitrariRo
           "tt0111161" "movie" None None []
           {| status_code := 200; content := "page" |} Fixture.mixed_listings _
           eq_refl eq_refl eq_refl).
Defined.

(* ===================================================================== *)
(** ** The identifier of a request *)
(* ===================================================================== *)

Lemma lstrip_digits (d : Decimal.uint) :
  PyStr.lstrip_by PyStr.is_c_space (NilEmpty.string_of_uint d)
  = NilEmpty.string_of_uint d.
Proof. destruct d; reflexivity. Qed.

Lemma rstrip_digits (d : Decimal.uint) :
  PyStr.rstrip_by PyStr.is_c_space (NilEmpty.string_of_uint d)
  = NilEmpty.string_of_uint d.
Proof.
  induction d; cbn [NilEmpty.string_of_uint PyStr.rstrip_by]; [reflexivity|..];
    rewrite IHd; destruct (NilEmpty.string_of_uint d); reflexivity.
Qed.

Lemma unsigned_digits (d : Decimal.uint) :
  PyStr.unsigned (NilEmpty.string_of_uint d) = NilEmpty.string_of_uint d.
Proof. destruct d; reflexivity. Qed.

Ltac digit_is_digit :=
  match goal with
  | |- context [PyStr.is_digit ?c] => change (PyStr.is_digit c) with true
  end.

Lemma digit_run_digits (d : Decimal.uint) :
  PyStr.digit_run (NilEmpty.string_of_uint d) = NilEmpty.string_of_uint d.
Proof.
  induction d; cbn [NilEmpty.string_of_uint PyStr.digit_run]; [reflexivity|..];
    digit_is_digit; cbn [orb]; now rewrite IHd.
Qed.

Lemma count_digits_uint (d : Decimal.uint) :
  PyStr.count_digits (NilEmpty.string_of_uint d)
  = String.length (NilEmpty.string_of_uint d).
Proof.
  induction d; cbn [NilEmpty.string_of_uint PyStr.count_digits String.length];
    [reflexivity|..]; digit_is_digit; now rewrite IHd.
Qed.

Lemma parse_digits_acc (d : Decimal.uint) :
  forall (z : Z) (acc : positive),
    z = Z.pos acc ->
    PyStr.parse_digits (NilEmpty.string_of_uint d) z true
    = Some (Z.pos (Pos.of_uint_acc d acc)).
Proof.
  induction d; intros z acc ->; cbn [NilEmpty.string_of_uint Pos.of_uint_acc];
    [reflexivity|..];
    (unfold PyStr.parse_digits; fold PyStr.parse_digits;
     digit_is_digit; cbv iota; apply IHd;
     match goal with
     | |- context [PyStr.digit_value ?c] =>
         let v := eval compute in (PyStr.digit_value c) in
         change (PyStr.digit_value c) with v
     end; lia).
Qed.

Lemma parse_digits_uint (d : Decimal.uint) :
  forall b, d <> Decimal.Nil \/ b = true ->
    PyStr.parse_digits (NilEmpty.string_of_uint d) 0%Z b
    = Some (Z.of_N (Pos.of_uint d)).
Proof.
  induction d; intros b Hb; cbn [NilEmpty.string_of_uint Pos.of_uint];
    [destruct Hb as [Hb| ->]; [contradiction | reflexivity] | ..];
    (unfold PyStr.parse_digits; fold PyStr.parse_digits;
     digit_is_digit; cbv iota;
     first [ apply IHd; now right
           | apply parse_digits_acc; reflexivity ]).
Qed.

(** A literal of at most [max_str_digits] digits is not refused for
    its size; a longer one is. *)
Lemma too_long_digits (d : Decimal.uint) :
  d <> Decimal.Nil ->
  PyStr.too_long (NilEmpty.string_of_uint d)
  = Nat.ltb PyStr.max_str_digits (String.length (NilEmpty.string_of_uint d)).
Proof.
  intros Hd. unfold PyStr.too_long.
  rewrite lstrip_digits, unsigned_digits, digit_run_digits.
  rewrite (@parse_digits_uint d false (or_introl Hd)).
  now rewrite count_digits_uint.
Qed.

Lemma too_long_negative (d : Decimal.uint) :
  d <> Decimal.Nil ->
  PyStr.too_long (String "-" (NilEmpty.string_of_uint d))
  = Nat.ltb PyStr.max_str_digits (String.length (NilEmpty.string_of_uint d)).
Proof.
  intros Hd. unfold PyStr.too_long.
  change (PyStr.lstrip_by PyStr.is_c_space (String "-" ?s)) with (String "-" s).
  change (PyStr.unsigned (String "-" ?s)) with s.
  rewrite digit_run_digits.
  rewrite (@parse_digits_uint d false (or_introl Hd)).
  now rewrite count_digits_uint.
Qed.

Lemma to_uint_not_nil (p : positive) : Pos.to_uint p <> Decimal.Nil.
Proof.
  intros H. pose proof (DecimalPos.Unsigned.of_to p) as Hp.
  rewrite H in Hp. discriminate Hp.
Qed.

Lemma parse_int_unsigned (d : Decimal.uint) :
  d <> Decimal.Nil ->
  String.length (NilEmpty.string_of_uint d) <= PyStr.max_str_digits ->
  PyStr.parse_int (NilEmpty.string_of_uint d) = Some (Z.of_N (Pos.of_uint d)).
Proof.
  intros Hd Hlen. rewrite <- (@parse_digits_uint d false (or_introl Hd)).
  unfold PyStr.parse_int. rewrite (too_long_digits Hd).
  replace (Nat.ltb PyStr.max_str_digits (String.length (NilEmpty.string_of_uint d)))
    with false by (symmetry; now apply Nat.ltb_ge).
  rewrite lstrip_digits, rstrip_digits.
  destruct d; [contradiction|..]; reflexivity.
Qed.

(** [int(str(z))] is [z], as long as [z] has no more digits than
    [int] accepts. *)
Lemma parse_int_of_Z (z : Z) :
  decimal_digits z <= PyStr.max_str_digits ->
  PyStr.parse_int (PyStr.of_Z z) = Some z.
Proof.
  unfold decimal_digits.
  destruct z as [|p|p]; [reflexivity|..]; unfold PyStr.of_Z;
    cbn [Z.abs Z.to_int NilEmpty.string_of_int]; intros Hlen.
  - rewrite parse_int_unsigned by (apply to_uint_not_nil || assumption).
    now rewrite DecimalPos.Unsigned.of_to.
  - unfold PyStr.parse_int. rewrite (too_long_negative (to_uint_not_nil p)).
    replace (Nat.ltb PyStr.max_str_digits
               (String.length (NilEmpty.string_of_uint (Pos.to_uint p))))
      with false by (symmetry; now apply Nat.ltb_ge).
    change (PyStr.lstrip_by PyStr.is_c_space (String "-" ?s)) with (String "-" s).
    cbn [PyStr.rstrip_by]. rewrite rstrip_digits.
    destruct (NilEmpty.string_of_uint (Pos.to_uint p)) eqn:Hs.
    + exfalso. apply (to_uint_not_nil p). destruct (Pos.to_uint p); try discriminate Hs.
      reflexivity.
    + rewrite <- Hs.
      rewrite (@parse_digits_uint (Pos.to_uint p) false (or_introl (to_uint_not_nil p))).
      now rewrite DecimalPos.Unsigned.of_to.
Qed.

(** Beyond that size [int] refuses what [str] printed. *)
Lemma parse_int_of_Z_too_long (z : Z) :
  PyStr.max_str_digits < decimal_digits z ->
  PyStr.parse_int (PyStr.of_Z z) = None.
Proof.
  unfold decimal_digits.
  destruct z as [|p|p]; unfold PyStr.of_Z;
    cbn [Z.abs Z.to_int NilEmpty.string_of_int]; intros Hlen.
  - exfalso. change (PyStr.max_str_digits < 1) in Hlen. unfold PyStr.max_str_digits in Hlen.
    lia.
  - unfold PyStr.parse_int. rewrite (too_long_digits (to_uint_not_nil p)).
    apply Nat.ltb_lt in Hlen. now rewrite Hlen.
  - unfold PyStr.parse_int. rewrite (too_long_negative (to_uint_not_nil p)).
    apply Nat.ltb_lt in Hlen. now rewrite Hlen.
Qed.

Lemma split_nonempty (sep : ascii) (s : string) : PyStr.split sep s <> [].
Proof.
  destruct s as [|c s]; cbn; [discriminate|].
  destruct (Ascii.eqb c sep); [discriminate|].
  destruct (PyStr.split sep s); discriminate.
Qed.

(** Splitting at a separator splits what is before it and what is after it. *)
Lemma split_app (sep : ascii) (a b : string) :
  PyStr.split sep (a ++ String sep b)
  = (PyStr.split sep a ++ PyStr.split sep b)%list.
Proof.
  induction a as [|c a IH]; cbn [String.append PyStr.split].
  - now rewrite Ascii.eqb_refl.
  - rewrite IH. destruct (Ascii.eqb c sep); [reflexivity|].
    pose proof (split_nonempty sep a) as Hne.
    destruct (PyStr.split sep a); [contradiction | reflexivity].
Qed.

Lemma no_colon_cons (c : ascii) (s : string) :
  no_colon (String c s) <-> c <> ":"%char /\ no_colon s.
Proof.
  unfold no_colon. cbn [list_ascii_of_string In]. split.
  - intros H. split; intros H'; apply H; [left; now symmetry | now right].
  - intros [Hc Hs] [H|H]; [apply Hc; now symmetry | now apply Hs].
Qed.

Lemma split_no_colon (s : string) : no_colon s -> PyStr.split ":" s = [s].
Proof.
  induction s as [|c s IH]; intros H; [reflexivity|].
  apply no_colon_cons in H. destruct H as [Hc Hs]. cbn [PyStr.split].
  apply Ascii.eqb_neq in Hc. rewrite Hc, (IH Hs). reflexivity.
Qed.

Lemma split_components_no_colon (s x : string) :
  In x (PyStr.split ":" s) -> no_colon x.
Proof.
  revert x. induction s as [|c s IH]; intros x; cbn [PyStr.split].
  - intros [<-|[]]. intros [].
  - destruct (Ascii.eqb c ":") eqn:Hc.
    + intros [<-|H]; [intros [] | now apply IH].
    + pose proof (split_nonempty ":" s) as Hne.
      destruct (PyStr.split ":" s) as [|hd tl]; [contradiction|].
      intros [<-|H].
      * apply no_colon_cons. split; [now apply Ascii.eqb_neq|].
        apply IH. now left.
      * apply IH. now right.
Qed.

(** Joining the components with the separator gives the string back. *)
Lemma split_join (s : string) : String.concat ":" (PyStr.split ":" s) = s.
Proof.
  induction s as [|c s IH]; [reflexivity|]. cbn [PyStr.split].
  pose proof (split_nonempty ":" s) as Hne.
  destruct (Ascii.eqb c ":") eqn:Hc.
  - apply Ascii.eqb_eq in Hc. subst c.
    destruct (PyStr.split ":" s) as [|hd tl]; [contradiction|].
    cbn [String.concat String.append] in *. now rewrite IH.
  - destruct (PyStr.split ":" s) as [|hd tl]; [contradiction|].
    destruct tl as [|hd' tl]; cbn [String.concat String.append] in *; now rewrite IH.
Qed.

Lemma no_colon_digits (d : Decimal.uint) : no_colon (NilEmpty.string_of_uint d).
Proof.
  induction d; cbn [NilEmpty.string_of_uint]; [intros []|..];
    (apply no_colon_cons; split; [discriminate | assumption]).
Qed.

Lemma no_colon_of_Z (z : Z) : no_colon (PyStr.of_Z z).
Proof.
  unfold PyStr.of_Z. destruct z; cbn [Z.to_int NilEmpty.string_of_int].
  - apply no_colon_digits.
  - apply no_colon_digits.
  - apply no_colon_cons. split; [discriminate | apply no_colon_digits].
Qed.

Lemma parse_component_some (parts : list string) (k : nat) (z : Z) :
  parse_component parts k = Ret (Some z) -> (k < length parts)%nat.
Proof.
  unfold parse_component. destruct (k <? length parts)%nat eqn:Hk.
  - intros _. now apply Nat.ltb_lt.
  - discriminate.
Qed.

Lemma parse_component_none (parts : list string) (k : nat) :
  parse_component parts k = Ret None -> (length parts <= k)%nat.
Proof.
  unfold parse_component. destruct (k <? length parts)%nat eqn:Hk.
  - destruct (PyStr.parse_int (nth k parts "")); discriminate.
  - intros _. now apply Nat.ltb_ge.
Qed.

(** X9: what the endpoint hands to the scrapers.  The imdb id starts
    with "tt" and holds no colon; an episode never comes without a
    season; and a request without season is a bare imdb id. *)
Theorem parsed_identifier_shape (request_id imdb_id : string)
  (season episode : option Z) :
  parse_request request_id = Ret (imdb_id, season, episode) ->
  PyStr.startswith imdb_id "tt" = true
  /\ no_colon imdb_id
  /\ (episode <> None -> season <> None)
  /\ (season = None -> episode = None /\ request_id = imdb_id).
Proof.
  intros Hparse. destruct (parse_request_imdb _ Hparse) as [Himdb Htt].
  unfold parse_request in Hparse.
  destruct (parse_component (PyStr.split ":" request_id) 1) as [s|] eqn:H1;
    [|discriminate].
  destruct (parse_component (PyStr.split ":" request_id) 2) as [e|] eqn:H2;
    [|discriminate].
  destruct (negb (PyStr.startswith (nth 0 (PyStr.split ":" request_id) "") "tt"));
    [discriminate|].
  injection Hparse as _ <- <-.
  pose proof (split_nonempty ":" request_id) as Hne.
  split; [|split; [|split]].
  - assumption.
  - subst imdb_id. apply (split_components_no_colon request_id).
    destruct (PyStr.split ":" request_id); [contradiction | now left].
  - intros He ->. destruct e as [z|]; [|contradiction].
    apply parse_component_some in H2. apply parse_component_none in H1. lia.
  - intros ->. apply parse_component_none in H1. split.
    + destruct e as [z|]; [|reflexivity].
      apply parse_component_some in H2. lia.
    + pose proof (split_join request_id) as Hjoin.
      destruct (PyStr.split ":" request_id) as [|x [|y rest]];
        [contradiction | | cbn in H1; lia].
      cbn in Hjoin, Himdb. congruence.
Qed.

Lemma parsed_identifier_shape_witness :
  PyStr.startswith "tt0903747" "tt" = true
  /\ no_colon "tt0903747"
  /\ (Some 5%Z <> None -> Some 1%Z <> None)
  /\ (Some 1%Z = None -> Some 5%Z = None /\ "tt0903747:1:5" = "tt0903747").
Proof.
  exact (@parsed_identifier_shape "tt0903747:1:5" "tt0903747" (Some 1%Z) (Some 5%Z)
           eq_refl).
Defined.

Lemma parse_request_extra_components (request_id junk : string) :
  3 <= length (PyStr.split ":" request_id) ->
  parse_request (request_id ++ ":" ++ junk) = parse_request request_id.
Proof.
  intros Hlen. unfold parse_request, parse_component.
  change (request_id ++ ":" ++ junk) with (request_id ++ String ":" junk).
  rewrite split_app, length_app.
  rewrite !app_nth1 by lia.
  replace (1 <? length (PyStr.split ":" request_id) + length (PyStr.split ":" junk))%nat
    with true by (symmetry; apply Nat.ltb_lt; lia).
  replace (2 <? length (PyStr.split ":" request_id) + length (PyStr.split ":" junk))%nat
    with true by (symmetry; apply Nat.ltb_lt; lia).
  replace (1 <? length (PyStr.split ":" request_id))%nat
    with true by (symmetry; apply Nat.ltb_lt; lia).
  replace (2 <? length (PyStr.split ":" request_id))%nat
    with true by (symmetry; apply Nat.ltb_lt; lia).
  reflexivity.
Qed.

(** X10: the endpoint reads the first three components of the
    identifier and no more: whatever follows a third colon changes
    nothing to the answer, and is never looked at. *)
Theorem components_after_third_ignored {lib : Library}
  (type request_id junk : string) (t : trace) :
  3 <= length (PyStr.split ":" request_id) ->
  fst (get_subtitles type (request_id ++ ":" ++ junk) t)
  = fst (get_subtitles type request_id t).
Proof.
  intros Hlen. rewrite !configured_response.
  now rewrite parse_request_extra_components.
Qed.

Lemma components_after_third_ignored_witness :
  fst (get_subtitles (lib := Fixture.serving Fixture.two_listings)
         "series" ("tt0903747:1:5" ++ ":" ++ "not:a:number") [])
  = fst (get_subtitles (lib := Fixture.serving Fixture.two_listings)
           "series" "tt0903747:1:5" []).
Proof.
  apply (@components_after_third_ignored (Fixture.serving Fixture.two_listings)).
  cbn. lia.
Defined.

(** X11: an identifier written the documented way is read back to its
    parts: a bare imdb id gives no season and no episode, and
    [imdb:season] and [imdb:season:episode] give back the integers that
    were printed, for all integers [int] accepts the size of, that is
    of at most 4300 digits (zero and negative numbers are accepted as
    well). *)
Theorem canonical_identifier_parsed_back (imdb_id : string) (season episode : Z) :
  PyStr.startswith imdb_id "tt" = true ->
  no_colon imdb_id ->
  decimal_digits season <= PyStr.max_str_digits ->
  decimal_digits episode <= PyStr.max_str_digits ->
  parse_request imdb_id = Ret (imdb_id, None, None)
  /\ parse_request (imdb_id ++ ":" ++ PyStr.of_Z season)
     = Ret (imdb_id, Some season, None)
  /\ parse_request (imdb_id ++ ":" ++ PyStr.of_Z season ++ ":" ++ PyStr.of_Z episode)
     = Ret (imdb_id, Some season, Some episode).
Proof.
  intros Htt Hcolon Hseason Hepisode. unfold parse_request, parse_component.
  repeat split.
  - rewrite (split_no_colon Hcolon). cbn [length nth Nat.ltb Nat.leb].
    now rewrite Htt.
  - change (imdb_id ++ ":" ++ PyStr.of_Z season)
      with (imdb_id ++ String ":" (PyStr.of_Z season)).
    rewrite split_app, (split_no_colon Hcolon), (split_no_colon (no_colon_of_Z season)).
    cbn [app length nth Nat.ltb Nat.leb].
    now rewrite (parse_int_of_Z season Hseason), Htt.
  - change (imdb_id ++ ":" ++ PyStr.of_Z season ++ ":" ++ PyStr.of_Z episode)
      with (imdb_id ++ String ":" (PyStr.of_Z season ++ String ":" (PyStr.of_Z episode))).
    rewrite !split_app, (split_no_colon Hcolon),
      (split_no_colon (no_colon_of_Z season)), (split_no_colon (no_colon_of_Z episode)).
    cbn [app length nth Nat.ltb Nat.leb].
    now rewrite (parse_int_of_Z season Hseason), (parse_int_of_Z episode Hepisode), Htt.
Qed.

Lemma canonical_identifier_parsed_back_witness :
  parse_request "tt1234567" = Ret ("tt1234567", None, None)
  /\ parse_request "tt1234567:1" = Ret ("tt1234567", Some 1%Z, None)
  /\ parse_request "tt1234567:1:5" = Ret ("tt1234567", Some 1%Z, Some 5%Z).
Proof.
  apply (@canonical_identifier_parsed_back "tt1234567" 1 5); [reflexivity| | |].
  - unfold no_colon. cbn. intuition discriminate.
  - apply Nat.leb_le. reflexivity.
  - apply Nat.leb_le. reflexivity.
Defined.

(** A season printed with more digits than [int] accepts makes the
    request fail with [ValueError]. *)
Lemma oversized_season_raises (imdb_id : string) (season : Z) :
  no_colon imdb_id ->
  PyStr.max_str_digits < decimal_digits season ->
  exists msg,
    parse_request (imdb_id ++ ":" ++ PyStr.of_Z season) = Raise (ValueError msg).
Proof.
  intros Hcolon Hlong. unfold parse_request, parse_component.
  change (imdb_id ++ ":" ++ PyStr.of_Z season)
    with (imdb_id ++ String ":" (PyStr.of_Z season)).
  rewrite split_app, (split_no_colon Hcolon), (split_no_colon (no_colon_of_Z season)).
  cbn [app length nth Nat.ltb Nat.leb].
  rewrite (parse_int_of_Z_too_long season Hlong). eauto.
Qed.

Lemma prefix_cons_inv (c : ascii) (p s : string) :
  String.prefix (String c p) s = true ->
  exists s', s = String c s' /\ String.prefix p s' = true.
Proof.
  destruct s as [|b s]; cbn [String.prefix]; [discriminate|].
  destruct (ascii_dec c b) as [<-|]; [eauto | discriminate].
Qed.

Ltac peel_prefix H :=
  repeat (apply prefix_cons_inv in H;
          let rest := fresh "rest" in
          let Heq := fresh "Heq" in
          destruct H as [rest [Heq H]]; subst).

(** An entry whose link starts with "http://" or "https://" and whose
    title is not empty is mapped without a call to [urljoin]. *)
Lemma http_link_entry_mapped {lib : Library} (cfg : SourceConfig)
  (imdb_id : string) (position : nat) (result : Tag) (link title_text : string) :
  entry_fields result = Some (link, title_text) ->
  PyStr.startswith link "http://" = true \/ PyStr.startswith link "https://" = true ->
  title_text <> "" ->
  map_entry cfg imdb_id (position, result)
  = Mapped {| id := id_tag cfg ++ "_" ++ PyStr.of_nat position ++ "_" ++ imdb_id;
              url := link;
              lang := "rum";
              title := "[" ++ site cfg ++ "] " ++ title_text |}
  /\ is_absolute_url link = true.
Proof.
  intros Hfields Hprefix Htitle. unfold map_entry. rewrite Hfields.
  destruct title_text as [|c title_text]; [contradiction|].
  unfold PyStr.startswith in Hprefix.
  destruct Hprefix as [H|H]; peel_prefix H; split; reflexivity.
Qed.

(** X12: a listing among the first ten matches whose link starts with
    "http://" or "https://" and whose title is not empty is always
    returned, whatever [urljoin] does (it is not called for it): its
    record carries the link as it is, and that link is an absolute
    URL. *)
Theorem http_links_kept_and_absolute {lib : Library} (a : adapter)
  (imdb_id type : string) (season episode : option Z) (t : trace)
  (response : Response) (soup : Soup)
  (position : nat) (result : Tag) (link title_text : string) :
  session_get (search_url (config a) imdb_id) = Ret response ->
  status_code response = 200%Z ->
  BeautifulSoup (content response) = Ret soup ->
  position < 10 ->
  nth_error (extracted (config a) soup) position = Some result ->
  entry_fields result = Some (link, title_text) ->
  PyStr.startswith link "http://" = true \/ PyStr.startswith link "https://" = true ->
  title_text <> "" ->
  In {| id := id_tag (config a) ++ "_" ++ PyStr.of_nat position ++ "_" ++ imdb_id;
        url := link;
        lang := "rum";
        title := "[" ++ site (config a) ++ "] " ++ title_text |}
     (contribution (fst (search_of a imdb_id type season episode t)))
  /\ is_absolute_url link = true.
Proof.
  intros Hget Hstatus Hparse Hlt Hnth Hfields Hprefix Htitle.
  destruct (http_link_entry_mapped (config a) imdb_id position result
              Hfields Hprefix Htitle) as [Hmapped Habs].
  split; [|assumption].
  rewrite search_of_run. cbn [fst contribution]. unfold search_result.
  rewrite Hget, Hstatus, Hparse. cbn [negb Z.eqb Pos.eqb].
  apply in_flat_map. exists (position, result). split.
  - unfold visited, enumerate. apply in_enumerate_from_firstn.
    rewrite Nat.sub_0_r. split; [lia | assumption].
  - unfold entry_records. rewrite Hmapped. now left.
Qed.

Lemma http_links_kept_and_absolute_witness :
  In {| id := "subsro_1_tt0111161";
        url := "https://www.example.ro/subtitrare/2";
        lang := "rum";
        title := "[subs.ro] Film B" |}
     (contribution
        (fst (search_of (lib := Fixture.serving Fixture.two_listings) SubsRo
                "tt0111161" "movie" None None [])))
  /\ is_absolute_url "https://www.example.ro/subtitrare/2" = true.
Proof.
  apply (@http_links_kept_and_absolute (Fixture.serving Fixture.two_listings)
           SubsRo "tt0111161" "movie" None None []
           {| status_code := 200; content := "page" |} Fixture.two_listings
           1 (Fixture.anchor "https://www.example.ro/subtitrare/2" "Film B")
           "https://www.example.ro/subtitrare/2" "Film B");
    first [reflexivity | lia | discriminate | right; reflexivity].
Defined.

(** [int] does not skip the separator 0x1C, which [str.strip] removes;
    it skips a form feed. *)
Example int_blanks :
  PyStr.parse_int (String (ascii_of_nat 28) "5") = None
  /\ PyStr.strip (String (ascii_of_nat 28) "5") = "5"
  /\ PyStr.parse_int (String (ascii_of_nat 12) "5 ") = Some 5%Z.
Proof. repeat split; reflexivity. Qed.

(** The text of the [ValueError] quotes the component as [repr] does. *)
Example int_error_samples :
  PyStr.int_error "abc" = "invalid literal for int() with base 10: 'abc'"
  /\ PyStr.int_error "1__2" = "invalid literal for int() with base 10: '1__2'"
  /\ PyStr.int_error (String (ascii_of_nat 10) "x")
     = "invalid literal for int() with base 10: '\nx'"
  /\ PyStr.int_error "it's"
     = "invalid literal for int() with base 10: "
       ++ String PyStr.double_quote ("it's" ++ String PyStr.double_quote "").
Proof. repeat split; reflexivity. Qed.

(** A literal of 4301 digits is refused, one of 4300 is not. *)
Example int_size_limit :
  PyStr.parse_int (String.concat "" (repeat "7" 4301)) = None
  /\ PyStr.parse_int (String.concat "" (repeat "0" 4299) ++ "7") = Some 7%Z.
Proof. split; vm_compute; reflexivity. Qed.
